(** * Excel extraction service: a shallow embedding of the two request handlers

    The repository holds two alternative entry points for one operation,
    [extract]:

    - [excel_api_service.py], the FastAPI service.  It sniffs the first cell
      of the sheet for a marker and selects columns by position.
    - [flask_app.py], the Flask service.  It matches the header against a
      static table of required column names and selects columns by name.

    Everything that the handlers obtain from a library (base64 decoding, the
    HTTP client, the pandas reader and writer, the clock) is a field of the
    environment record [Env]; everything the handlers decide themselves is a
    definition below. *)

From Stdlib Require Import ZArith NArith Ascii String List.
From Stdlib.Strings Require Import Byte.
From stdpp Require Import base decidable option list gmap strings pretty.

Local Open Scope string_scope.

(** ** Python values and exceptions *)

Module Py.

Definition bytes := list Byte.byte.

(** The exceptions a handler can see: FastAPI's [HTTPException], raised by
    the handler itself, and any other exception, of which only the class
    name and the text of [str(e)] are kept. *)
Inductive exn :=
| HTTPException (status_code : Z) (detail : string)
| PyExc (cls : string) (msg : string).

(** [str(e)].  Starlette prints an [HTTPException] as status and detail. *)
Definition exn_str (e : exn) : string :=
  match e with
  | HTTPException status_code detail => pretty status_code +:+ ": " +:+ detail
  | PyExc _ msg => msg
  end.

(** A computation that returns or raises. *)
Inductive result (A : Type) :=
| Ok (a : A)
| Raise (e : exn).
Arguments Ok {A} a.
Arguments Raise {A} e.

#[global] Instance result_ret : MRet result := @Ok.
#[global] Instance result_bind : MBind result := λ A B f m,
  match m with
  | Ok a => f a
  | Raise e => Raise e
  end.

(** Truth value of a string, and of an optional string ([None] is false). *)
Definition truthy (s : string) : bool :=
  match s with EmptyString => false | String _ _ => true end.

Definition opt_truthy (o : option string) : bool :=
  match o with Some s => truthy s | None => false end.

(** [needle in hay] on strings.  Strings are sequences of UTF-8 bytes; on
    well-formed UTF-8 a run of bytes occurs exactly where the run of
    characters does. *)
Fixpoint str_contains (needle hay : string) : bool :=
  String.prefix needle hay ||
  match hay with
  | EmptyString => false
  | String _ rest => str_contains needle rest
  end.

(** [base64.b64encode], standard alphabet with padding. *)
Definition b64_alphabet : string :=
  "ABCDEFGHIJKLMNOPQRSTUVWXYZabcdefghijklmnopqrstuvwxyz0123456789+/".

Definition b64_char (n : N) : ascii :=
  match String.get (N.to_nat n) b64_alphabet with
  | Some c => c
  | None => "="%char
  end.

Definition sextet (word : N) (k : N) : ascii :=
  b64_char (N.land (N.shiftr word (6 * k)) 63).

Fixpoint b64encode (bs : bytes) : string :=
  match bs with
  | [] => EmptyString
  | [a] =>
      let w := N.shiftl (Byte.to_N a) 16 in
      String (sextet w 3) (String (sextet w 2) "==")
  | [a; b] =>
      let w := N.lor (N.shiftl (Byte.to_N a) 16) (N.shiftl (Byte.to_N b) 8) in
      String (sextet w 3) (String (sextet w 2) (String (sextet w 1) "="))
  | a :: b :: c :: rest =>
      let w := N.lor (N.lor (N.shiftl (Byte.to_N a) 16) (N.shiftl (Byte.to_N b) 8))
                     (Byte.to_N c) in
      String (sextet w 3) (String (sextet w 2) (String (sextet w 1)
        (String (sextet w 0) (b64encode rest))))
  end.

End Py.

Import Py.

(** ** The pandas data model *)

Module Pandas.

(** A value of a frame as the reader delivers it: the missing value, an
    integer, a float, a text or a boolean.  A float is carried by its
    [repr], the shortest decimal string that reads back to the same float,
    which is also what [str] prints. *)
Inductive cell :=
| CNaN
| CInt (z : Z)
| CFloat (repr : string)
| CStr (s : string)
| CBool (b : bool).

(** [str(cell)]. *)
Definition py_str (c : cell) : string :=
  match c with
  | CNaN => "nan"
  | CInt z => pretty z
  | CFloat repr => repr
  | CStr s => s
  | CBool true => "True"
  | CBool false => "False"
  end.

(** [pd.to_numeric(c, errors='coerce')] is not NaN.  Whether a text cell
    reads as a number is the library's decision, [text_is_number]. *)
Definition to_numeric_notna (text_is_number : string → bool) (c : cell) : bool :=
  match c with
  | CNaN => false
  | CInt _ | CFloat _ | CBool _ => true
  | CStr s => text_is_number s
  end.

(** A column label: an integer position (a frame read with [header=None])
    or a name. *)
Inductive label :=
| LInt (z : Z)
| LStr (s : string).

#[global] Instance label_eq_dec : EqDecision label.
Proof. solve_decision. Defined.

#[global] Instance label_countable : Countable label :=
  inj_countable'
    (λ l, match l with LInt z => inl z | LStr s => inr s end)
    (λ x, match x with inl z => LInt z | inr s => LStr s end)
    (λ l, match l with LInt _ => eq_refl | LStr _ => eq_refl end).

(** A data frame, row-major: the column labels and the rows. *)
Record DataFrame := {
  columns : list label;
  rows : list (list cell)
}.

(** [len(df)]: the number of rows. *)
Definition len (df : DataFrame) : nat := length (rows df).

(** Every row is as wide as the header. *)
Definition rectangular (df : DataFrame) : Prop :=
  Forall (λ r, length r = length (columns df)) (rows df).

(** What the reader guarantees of a frame it returns: it is rectangular,
    and a frame that has a row has a column. *)
Definition parsed (df : DataFrame) : Prop :=
  rectangular df ∧ (rows df ≠ [] → columns df ≠ []).

Definition IndexError (msg : string) : exn := PyExc "IndexError" msg.
Definition ValueError (msg : string) : exn := PyExc "ValueError" msg.

(** Positional access into one row. *)
Definition at_pos (r : list cell) (j : nat) : cell := nth j r CNaN.

Definition take_positions (idxs : list nat) (r : list cell) : list cell :=
  map (at_pos r) idxs.

(** [df.iloc[i, j]] with integers [i] and [j]: both are checked against
    the shape of the frame. *)
Definition out_of_bounds (k size : nat) : exn :=
  IndexError ("index " +:+ pretty k +:+ " is out of bounds for axis 0 with size " +:+
              pretty size).

Definition iloc_cell (df : DataFrame) (i j : nat) : result cell :=
  if negb (j <? length (columns df))%nat then Raise (out_of_bounds j (length (columns df)))
  else if negb (i <? len df)%nat then Raise (out_of_bounds i (len df))
  else Ok (at_pos (nth i (rows df) []) j).

(** [df.iloc[:, j]] with an integer [j]: one column as a series. *)
Definition iloc_col (df : DataFrame) (j : nat) : result (list cell) :=
  if (j <? length (columns df))%nat
  then Ok (map (λ r, at_pos r j) (rows df))
  else Raise (IndexError "single positional indexer is out-of-bounds").

(** [df.iloc[:, idxs]] with a list of integers. *)
Definition iloc_cols (df : DataFrame) (idxs : list nat) : result DataFrame :=
  if forallb (λ j, j <? length (columns df))%nat idxs
  then Ok {| columns := map (λ j, nth j (columns df) (LInt (Z.of_nat j))) idxs;
             rows := map (take_positions idxs) (rows df) |}
  else Raise (IndexError "positional indexers are out-of-bounds").

(** [df[mask]] with a boolean series over the same rows. *)
Fixpoint mask_rows {A} (mask : list bool) (l : list A) : list A :=
  match mask, l with
  | b :: mask', x :: l' => if b then x :: mask_rows mask' l' else mask_rows mask' l'
  | _, _ => []
  end.

Definition df_mask (df : DataFrame) (mask : list bool) : DataFrame :=
  {| columns := columns df; rows := mask_rows mask (rows df) |}.

(** [df.columns = names]: the lengths must agree. *)
Definition set_columns (df : DataFrame) (names : list label) : result DataFrame :=
  if (length names =? length (columns df))%nat
  then Ok {| columns := names; rows := rows df |}
  else Raise (ValueError
         ("Length mismatch: Expected axis has " +:+ pretty (length (columns df)) +:+
          " elements, new values have " +:+ pretty (length names) +:+ " elements")).

(** [df[names]] with a list of labels: for each requested label the
    columns that carry it, in request order. *)
Definition positions_of (cols : list label) (name : label) : list nat :=
  map fst (filter (λ p, p.2 = name) (imap (λ i c, (i, c)) cols)).

Definition select_columns (df : DataFrame) (names : list label) : DataFrame :=
  let idxs := concat (map (positions_of (columns df)) names) in
  {| columns := map (λ j, nth j (columns df) (LInt (Z.of_nat j))) idxs;
     rows := map (take_positions idxs) (rows df) |}.

(** [repr] of a list, given the [repr] of an element. *)
Definition repr_list {A} (repr : A → string) (l : list A) : string :=
  "[" +:+ String.concat ", " (map repr l) +:+ "]".

End Pandas.

Import Pandas.

(** ** The libraries the handlers call *)

Record HttpResponse := {
  status_code : Z;
  reason : string;
  content : bytes
}.

(** One field per library call of the two handlers.  [read_excel header
    skiprows] is [pd.read_excel(BytesIO(b), header=..., skiprows=...)];
    [to_excel] is the [ExcelWriter] block up to [output.getvalue()];
    [strftime_now] is [datetime.now().strftime('%Y%m%d_%H%M%S')]. *)
Record Env := {
  b64decode : string → result bytes;
  requests_get : string → result HttpResponse;
  read_excel : option nat → nat → bytes → result DataFrame;
  text_is_number : string → bool;
  to_excel : DataFrame → result bytes;
  strftime_now : string;
  repr_label : label → string
}.

(** What a handler did to the outside world: the URLs it fetched, in order. *)
Inductive event := HttpGet (url : string).

(** ** The FastAPI service, [excel_api_service.py] *)

Module FastApi.

Record ExtractRequest := {
  file_url : string;
  file_base64 : option string
}.

Record ExtractResponse := {
  success : bool;
  format_type : string;
  row_count : nat;
  resp_file_base64 : string;
  filename : string;
  message : string;
  column_names : list label
}.

(** The two layouts of the position-based strategy. *)
Inductive layout := SurveyResults | SlopeInspection.

Definition format_name (l : layout) : string :=
  match l with
  | SurveyResults => "测量成果表"
  | SlopeInspection => "边坡检查表"
  end.

(** Lines 64-75: where the file content comes from. *)
Definition get_file_content (env : Env) (request : ExtractRequest)
  : list event * result bytes :=
  if opt_truthy (file_base64 request) then
    ([], b64decode env (default EmptyString (file_base64 request)))
  else if truthy (file_url request) then
    ([HttpGet (file_url request)],
     response ← requests_get env (file_url request);
     if negb (status_code response =? 200)%Z then
       Raise (HTTPException 400 ("下载文件失败: HTTP " +:+ pretty (status_code response)))
     else Ok (content response))
  else
    ([], Raise (HTTPException 400 "请提供file_url或file_base64")).

(** Line 79. *)
Definition first_cell (df_raw : DataFrame) : result string :=
  if (0 <? len df_raw)%nat then c ← iloc_cell df_raw 0 0; Ok (py_str c)
  else Ok EmptyString.

(** Line 82, the test of the branch. *)
Definition has_marker (first_cell : string) : bool :=
  str_contains "Survey results" first_cell || str_contains "测量成果表" first_cell.

Definition classify (df_raw : DataFrame) : result layout :=
  fc ← first_cell df_raw;
  Ok (if has_marker fc then SurveyResults else SlopeInspection).

(** Lines 84-87, on the frame read with [header=None, skiprows=7]. *)
Definition survey_target_columns : list nat := [1; 2; 3; 4]%nat.

Definition survey_column_names : list label :=
  [LStr "测点编号"; LStr "X坐标"; LStr "Y坐标"; LStr "高程H"].

Definition survey_select (env : Env) (df : DataFrame) : result DataFrame :=
  discriminant ← iloc_col df 2;
  let df := df_mask df (map (to_numeric_notna (text_is_number env)) discriminant) in
  extracted_df ← iloc_cols df survey_target_columns;
  set_columns extracted_df survey_column_names.

(** Lines 93-100, on the frame read with [header=0]. *)
Definition slope_target_columns : list nat := [0; 5; 8; 9; 10; 11; 12; 13]%nat.

Definition new_column_names : list label :=
  [LStr "线路名"; LStr "超欠挖"; LStr "实测X或里程"; LStr "实测Y或偏距";
   LStr "实测Z坐标"; LStr "里程"; LStr "偏距"; LStr "设计标高"].

Definition valid_indices (ncols : nat) : list nat :=
  filter (λ i, i < ncols)%nat slope_target_columns.

Definition slope_select (df : DataFrame) : result DataFrame :=
  let valid := valid_indices (length (columns df)) in
  extracted_df ← iloc_cols df valid;
  set_columns extracted_df (take (length valid) new_column_names).

(** Lines 78-101: classification and extraction. *)
Definition extract_table (env : Env) (file_content : bytes)
  : result (DataFrame * layout) :=
  df_raw ← read_excel env None 0 file_content;
  l ← classify df_raw;
  match l with
  | SurveyResults =>
      df ← read_excel env None 7 file_content;
      extracted_df ← survey_select env df;
      Ok (extracted_df, SurveyResults)
  | SlopeInspection =>
      df ← read_excel env (Some 0%nat) 0 file_content;
      extracted_df ← slope_select df;
      Ok (extracted_df, SlopeInspection)
  end.

(** Lines 103-112. *)
Definition no_data_response (l : layout) : ExtractResponse :=
  {| success := false;
     format_type := format_name l;
     row_count := 0;
     resp_file_base64 := EmptyString;
     filename := EmptyString;
     message := "未能提取到任何数据";
     column_names := [] |}.

(** Lines 114-133. *)
Definition make_filename (format_type timestamp : string) : string :=
  "提取数据_" +:+ format_type +:+ "_" +:+ timestamp +:+ ".xlsx".

Definition success_response (env : Env) (extracted_df : DataFrame) (l : layout)
  : result ExtractResponse :=
  excel_bytes ← to_excel env extracted_df;
  Ok {| success := true;
        format_type := format_name l;
        row_count := len extracted_df;
        resp_file_base64 := b64encode excel_bytes;
        filename := make_filename (format_name l) (strftime_now env);
        message := "识别为【" +:+ format_name l +:+ "】，成功提取 " +:+
                   pretty (len extracted_df) +:+ " 行数据";
        column_names := columns extracted_df |}.

Definition respond (env : Env) (extracted_df : DataFrame) (l : layout)
  : result ExtractResponse :=
  if (len extracted_df =? 0)%nat then Ok (no_data_response l)
  else success_response env extracted_df l.

(** Lines 135-144, the handler of [except Exception]. *)
Definition failure_response (e : exn) : ExtractResponse :=
  {| success := false;
     format_type := "未知";
     row_count := 0;
     resp_file_base64 := EmptyString;
     filename := EmptyString;
     message := "解析Excel失败: " +:+ exn_str e;
     column_names := [] |}.

(** The body of [try]. *)
Definition try_extract (env : Env) (request : ExtractRequest)
  : list event * result ExtractResponse :=
  let '(trace, file_content) := get_file_content env request in
  (trace,
   file_content ← file_content;
   '(extracted_df, l) ← extract_table env file_content;
   respond env extracted_df l).

(** [extract_excel]: the response and the fetches made on the way. *)
Definition extract_excel (env : Env) (request : ExtractRequest)
  : list event * ExtractResponse :=
  let '(trace, r) := try_extract env request in
  (trace, match r with Ok response => response | Raise e => failure_response e end).

(** The request as it arrives, before the model [ExtractRequest] is
    validated: each field is absent, [null] or a string. *)
Inductive json_field := JAbsent | JNull | JString (s : string).

Record RawRequest := {
  raw_file_url : json_field;
  raw_file_base64 : json_field
}.

(** Validation against [ExtractRequest]: [file_url: str] is required,
    [file_base64: Optional[str] = None] is not. *)
Definition validate (raw : RawRequest) : option ExtractRequest :=
  match raw_file_url raw with
  | JString url =>
      Some {| file_url := url;
              file_base64 := match raw_file_base64 raw with
                             | JString b => Some b
                             | JAbsent | JNull => None
                             end |}
  | JAbsent | JNull => None
  end.

(** The body that validates to a given request. *)
Definition RawRequest_of (request : ExtractRequest) : RawRequest :=
  {| raw_file_url := JString (file_url request);
     raw_file_base64 := match file_base64 request with
                        | Some b => JString b
                        | None => JAbsent
                        end |}.

(** What the route [POST /extract] answers: the handler's response, or
    the framework's rejection of an invalid body. *)
Inductive reply :=
| Handled (response : ExtractResponse)
| Unprocessable.

Definition post_extract (env : Env) (raw : RawRequest) : list event * reply :=
  match validate raw with
  | Some request =>
      let '(trace, response) := extract_excel env request in (trace, Handled response)
  | None => ([], Unprocessable)
  end.

End FastApi.

(** ** The Flask service, [flask_app.py] *)

Module FlaskApp.

Record FormatInfo := {
  identifier_columns : list label;
  extract_columns : list label
}.

(** The static format table, in the order of the dictionary literal. *)
Definition EXCEL_FORMATS : list (string * FormatInfo) :=
  [("边坡检查表",
    {| identifier_columns := [LStr "序号"; LStr "桩号"];
       extract_columns := [LStr "序号"; LStr "桩号"; LStr "检查时间"; LStr "责任人";
                           LStr "问题描述"; LStr "整改措施"] |});
   ("测量成果表",
    {| identifier_columns := [LStr "点号"; LStr "X坐标"];
       extract_columns := [LStr "点号"; LStr "X坐标"; LStr "Y坐标"; LStr "高程";
                           LStr "备注"] |})].

(** The loop of [detect_excel_format] over a format table. *)
Fixpoint detect_loop (formats : list (string * FormatInfo)) (columns : gset label)
  : option (string * list label) :=
  match formats with
  | [] => None
  | (format_name, format_info) :: formats' =>
      let id_cols : gset label := list_to_set (identifier_columns format_info) in
      if decide (id_cols ⊆ columns) then Some (format_name, extract_columns format_info)
      else detect_loop formats' columns
  end.

Definition detect_excel_format (df : DataFrame) : option string * list label :=
  let columns : gset label := list_to_set (columns df) in
  match detect_loop EXCEL_FORMATS columns with
  | Some (format_name, cols) => (Some format_name, cols)
  | None => (None, Pandas.columns df)
  end.

Definition read_excel_from_base64 (env : Env) (base64_string : string)
  : result DataFrame :=
  excel_bytes ← b64decode env base64_string;
  read_excel env (Some 0%nat) 0 excel_bytes.

(** [response.raise_for_status()]. *)
Definition raise_for_status (url : string) (response : HttpResponse) : result unit :=
  let code := status_code response in
  if (400 <=? code)%Z && (code <? 500)%Z then
    Raise (PyExc "HTTPError" (pretty code +:+ " Client Error: " +:+ reason response +:+
                              " for url: " +:+ url))
  else if (500 <=? code)%Z && (code <? 600)%Z then
    Raise (PyExc "HTTPError" (pretty code +:+ " Server Error: " +:+ reason response +:+
                              " for url: " +:+ url))
  else Ok ().

Definition read_excel_from_url (env : Env) (url : string) : result DataFrame :=
  response ← requests_get env url;
  _ ← raise_for_status url response;
  read_excel env (Some 0%nat) 0 (content response).

(** The JSON object of a request: the three keys the handler reads. *)
Record Payload := {
  file_url : option string;
  file_base64 : option string;
  custom_columns : option (list label)
}.

(** [request.get_json()]: a value that is false ([None], an empty object)
    or an object with at least one key. *)
Inductive request_json :=
| NoData
| Data (data : Payload).

(** The JSON body of a response. *)
Inductive response_json :=
| Failed (message : string)
| Extracted (message : string) (detected_format : string)
            (extracted_columns : list label) (row_count : nat) (file_base64 : string).

Definition success (r : response_json) : bool :=
  match r with Failed _ => false | Extracted _ _ _ _ _ => true end.

(** A response: the body and the HTTP status. *)
Definition response := (response_json * Z)%type.

(** Line 92. *)
Definition columns_to_extract (custom_columns : option (list label))
                              (default_columns : list label) : list label :=
  match custom_columns with
  | Some (c :: cs) => c :: cs
  | Some [] | None => default_columns
  end.

(** Line 95. *)
Definition available_columns (df : DataFrame) (to_extract : list label) : list label :=
  filter (λ col, col ∈ columns df) to_extract.

(** Lines 88-121, once the frame is read. *)
Definition extract_from (env : Env) (custom : option (list label)) (df : DataFrame)
  : result response :=
  let '(detected_format, default_columns) := detect_excel_format df in
  let available := available_columns df (columns_to_extract custom default_columns) in
  match available with
  | [] =>
      Ok (Failed ("未找到指定的列。可用列: " +:+ repr_list (repr_label env) (columns df)),
          400%Z)
  | _ :: _ =>
      let extracted_df := select_columns df available in
      excel_bytes ← to_excel env extracted_df;
      Ok (Extracted ("成功提取 " +:+ pretty (len extracted_df) +:+ " 行数据")
                    (default "未知格式" detected_format)
                    available
                    (len extracted_df)
                    (b64encode excel_bytes),
          200%Z)
  end.

(** Lines 77-86: which source is read, and what it costs. *)
Definition read_source (env : Env) (data : Payload)
  : list event * option (result DataFrame) :=
  if opt_truthy (file_base64 data) then
    ([], Some (read_excel_from_base64 env (default EmptyString (file_base64 data))))
  else if opt_truthy (file_url data) then
    ([HttpGet (default EmptyString (file_url data))],
     Some (read_excel_from_url env (default EmptyString (file_url data))))
  else ([], None).

(** The body of [try]. *)
Definition try_extract (env : Env) (req : request_json)
  : list event * result response :=
  match req with
  | NoData => ([], Ok (Failed "请求体为空", 400%Z))
  | Data data =>
      let '(trace, source) := read_source env data in
      (trace,
       match source with
       | None => Ok (Failed "请提供 file_url 或 file_base64", 400%Z)
       | Some read =>
           df ← read;
           extract_from env (custom_columns data) df
       end)
  end.

(** [extract_excel]: the response and the fetches made on the way. *)
Definition extract_excel (env : Env) (req : request_json) : list event * response :=
  let '(trace, r) := try_extract env req in
  (trace,
   match r with
   | Ok resp => resp
   | Raise e => (Failed ("处理失败: " +:+ exn_str e), 500%Z)
   end).

End FlaskApp.

(** ** Sample inputs, used by the worked examples below *)

Module Sample.

(** A text cell reads as a number when it is a non-empty run of digits. *)
Fixpoint all_digits (s : string) : bool :=
  match s with
  | EmptyString => true
  | String c rest =>
      (48 <=? Ascii.nat_of_ascii c)%nat && (Ascii.nat_of_ascii c <=? 57)%nat &&
      all_digits rest
  end.

Definition digits (s : string) : bool := truthy s && all_digits s.

Definition quote_label (l : label) : string :=
  match l with
  | LInt z => pretty z
  | LStr s => "'" +:+ s +:+ "'"
  end.

(** The first bytes of a ZIP container. *)
Definition zip_magic : bytes := [x50; x4b; x03; x04].

(** An environment in which every byte string decodes and parses: the
    reader returns [raw] for [header=None], [skipped] for [header=None,
    skiprows=7] and [headed] for [header=0]; every URL answers [status]. *)
Definition env_of (raw skipped headed : DataFrame) (status : Z) (why : string) : Env :=
  {| b64decode := λ _, Ok [];
     requests_get := λ _, Ok {| status_code := status; reason := why; content := [] |};
     read_excel := λ header skiprows _,
       match header, skiprows with
       | None, 0%nat => Ok raw
       | None, _ => Ok skipped
       | Some _, _ => Ok headed
       end;
     text_is_number := digits;
     to_excel := λ _, Ok zip_magic;
     strftime_now := "20240101_120000";
     repr_label := quote_label |}.

Definition range_labels (n : nat) : list label := map (λ i, LInt (Z.of_nat i)) (seq 0 n).

(** Scenario A: a marker in the first cell, seven leading rows, then five
    rows of which four carry a number in the third column. *)
Definition survey_data : list (list cell) :=
  [ [CInt 1; CStr "P1"; CFloat "100.5"; CFloat "200.5"; CFloat "12.3"];
    [CInt 2; CStr "P2"; CInt 101; CInt 201; CFloat "12.4"];
    [CStr "备注"; CStr "note"; CStr "see above"; CNaN; CNaN];
    [CInt 3; CStr "P3"; CStr "102"; CInt 202; CFloat "12.5"];
    [CInt 4; CStr "P4"; CInt 103; CInt 203; CFloat "12.6"] ].

Definition survey_head : list (list cell) :=
  [CStr "测量成果表 Survey results"; CNaN; CNaN; CNaN; CNaN]
  :: repeat [CNaN; CNaN; CNaN; CNaN; CNaN] 6.

Definition survey_raw : DataFrame :=
  {| columns := range_labels 5; rows := survey_head ++ survey_data |}.

Definition survey_skipped : DataFrame :=
  {| columns := range_labels 5; rows := survey_data |}.

(** A survey sheet of three columns only: as read in full, and as read
    with the seven leading rows skipped. *)
Definition narrow_raw : DataFrame :=
  {| columns := range_labels 3;
     rows := [CStr "Survey results"; CNaN; CNaN]
             :: repeat [CNaN; CNaN; CNaN] 6 ++ [[CStr "P1"; CInt 7; CInt 100]] |}.

Definition narrow_survey : DataFrame :=
  {| columns := range_labels 3; rows := [[CStr "P1"; CInt 7; CInt 100]] |}.

(** Scenario C: a conventional header of nine columns, two data rows. *)
Definition nine_names : list label :=
  [LStr "线路"; LStr "b"; LStr "c"; LStr "d"; LStr "e"; LStr "超欠挖"; LStr "g";
   LStr "h"; LStr "X"].

Definition nine_columns : DataFrame :=
  {| columns := nine_names;
     rows := [ [CStr "K1"; CInt 1; CInt 2; CInt 3; CInt 4; CInt 5; CInt 6; CInt 7; CInt 8];
               [CStr "K2"; CInt 9; CInt 8; CInt 7; CInt 6; CInt 5; CInt 4; CInt 3; CInt 2] ] |}.

Definition empty_frame : DataFrame := {| columns := []; rows := [] |}.

(** Scenario E: after the seven leading rows only notes remain. *)
Definition survey_notes : DataFrame :=
  {| columns := range_labels 5;
     rows := [ [CStr "备注"; CStr "note"; CStr "see above"; CNaN; CNaN];
               [CNaN; CNaN; CNaN; CNaN; CNaN] ] |}.

Definition inline_request : FastApi.ExtractRequest :=
  {| FastApi.file_url := "http://files.example/sheet.xlsx";
     FastApi.file_base64 := Some "UEsDBA==" |}.

Definition url_request : FastApi.ExtractRequest :=
  {| FastApi.file_url := "http://files.example/sheet.xlsx";
     FastApi.file_base64 := None |}.

Definition inline_payload : FlaskApp.Payload :=
  {| FlaskApp.file_url := Some "http://files.example/sheet.xlsx";
     FlaskApp.file_base64 := Some "UEsDBA==";
     FlaskApp.custom_columns := None |}.

Definition absent_columns_payload : FlaskApp.Payload :=
  {| FlaskApp.file_url := None;
     FlaskApp.file_base64 := Some "UEsDBA==";
     FlaskApp.custom_columns := Some [LStr "桩号"; LStr "责任人"] |}.

Definition base64_only : FastApi.RawRequest :=
  {| FastApi.raw_file_url := FastApi.JAbsent;
     FastApi.raw_file_base64 := FastApi.JString "UEsDBA==" |}.

Definition no_source_payload : FlaskApp.Payload :=
  {| FlaskApp.file_url := None;
     FlaskApp.file_base64 := Some EmptyString;
     FlaskApp.custom_columns := Some [LStr "桩号"] |}.

Definition url_payload : FlaskApp.Payload :=
  {| FlaskApp.file_url := Some "http://files.example/sheet.xlsx";
     FlaskApp.file_base64 := None;
     FlaskApp.custom_columns := None |}.

(** A sheet with the header of the inspection layout and no data row. *)
Definition header_only : DataFrame :=
  {| columns := [LStr "序号"; LStr "桩号"; LStr "检查时间"]; rows := [] |}.

(** A sheet whose header matches no layout. *)
Definition other_sheet : DataFrame :=
  {| columns := [LStr "a"; LStr "b"]; rows := [[CInt 1; CInt 2]] |}.

End Sample.

(** ** The specification's own wording, to compare the code with *)

Module Spec.

(** The string of the cell at row 0, column 0; the empty string when the
    table has no such cell. *)
Definition first_cell_text (df_raw : DataFrame) : string :=
  match rows df_raw with
  | (c :: _) :: _ => py_str c
  | _ => EmptyString
  end.

(** The first cell carries one of the two marker substrings. *)
Definition marked (text : string) : Prop :=
  str_contains "Survey results" text = true ∨ str_contains "测量成果表" text = true.

(** A row of the survey layout counts as data when the cell at position 2
    reads as a number. *)
Definition numeric_at_2 (env : Env) (r : list cell) : bool :=
  to_numeric_notna (text_is_number env) (nth 2 r CNaN).

(** The four, respectively eight, cells of a row at fixed positions. *)
Definition pick_survey (r : list cell) : list cell :=
  [nth 1 r CNaN; nth 2 r CNaN; nth 3 r CNaN; nth 4 r CNaN].

(** A layout matches a header when every required identifier column is
    among the header's column names. *)
Definition matches (header : gset label) (info : FlaskApp.FormatInfo) : Prop :=
  list_to_set (FlaskApp.identifier_columns info) ⊆ header.

(** [name] is the first layout of [formats], in enumeration order, that
    matches [header]. *)
Definition first_match (formats : list (string * FlaskApp.FormatInfo))
           (header : gset label) (name : string) (info : FlaskApp.FormatInfo) : Prop :=
  ∃ before after,
    formats = (before ++ (name, info) :: after)%list ∧
    matches header info ∧
    Forall (λ p, ¬ matches header p.2) before.

End Spec.

(** ** Environments that differ in the clock only *)


(** The environment [env] with another reader. *)
Definition with_reader (env : Env)
    (reader : option nat → nat → bytes → result DataFrame) : Env :=
  {| b64decode := b64decode env;
     requests_get := requests_get env;
     read_excel := reader;
     text_is_number := text_is_number env;
     to_excel := to_excel env;
     strftime_now := strftime_now env;
     repr_label := repr_label env |}.

(** A sheet of sixteen columns with one data row that holds, in each cell,
    the position of the cell. *)
Definition sixteen_columns : DataFrame :=
  {| columns := map (λ i, LStr ("c" +:+ pretty i)) (seq 0 16);
     rows := [map (λ i, CInt (Z.of_nat i)) (seq 0 16)] |}.

(** * Properties *)

(** ** Helper lemmas *)

Lemma mask_rows_filter {A} (p : A → bool) (l : list A) :
  mask_rows (map p l) l = List.filter p l.
Proof.
  induction l as [|x l IH]; simpl; [done|].
  destruct (p x); by rewrite IH.
Qed.

Lemma ltb_true (a b : nat) : (a < b)%nat → (a <? b)%nat = true.
Proof. intros. by apply Nat.ltb_lt. Qed.

Lemma first_cell_parsed (df_raw : DataFrame) :
  parsed df_raw → FastApi.first_cell df_raw = Ok (Spec.first_cell_text df_raw).
Proof.
  intros [Hrect Hcols].
  unfold FastApi.first_cell, Spec.first_cell_text, iloc_cell, len, rectangular in *.
  destruct (rows df_raw) as [|r rs] eqn:Hrows; [done|].
  assert (columns df_raw ≠ []) as Hne by (apply Hcols; done).
  apply Forall_cons_1 in Hrect as [Hr _].
  destruct (columns df_raw) as [|l ls]; [done|].
  destruct r as [|c r]; [done|].
  reflexivity.
Qed.

(** ** The position-based classifier *)

(** C1.  For every parsed raw table the classifier returns a layout and
    never raises: the survey layout, named 测量成果表, when the text of the
    cell at row 0, column 0 (the empty string when the table has no row)
    contains [Survey results] or 测量成果表, and the slope-inspection layout,
    named 边坡检查表, in every other case.  No third outcome exists. *)
Theorem C1_position_classification (df_raw : DataFrame) (Hparsed : parsed df_raw) :
  let text := Spec.first_cell_text df_raw in
  (Spec.marked text →
     FastApi.classify df_raw = Ok FastApi.SurveyResults ∧
     FastApi.format_name FastApi.SurveyResults = "测量成果表") ∧
  (¬ Spec.marked text →
     FastApi.classify df_raw = Ok FastApi.SlopeInspection ∧
     FastApi.format_name FastApi.SlopeInspection = "边坡检查表") ∧
  (∃ l, FastApi.classify df_raw = Ok l ∧ FastApi.format_name l ≠ "未知").
Proof.
  intros text. unfold FastApi.classify.
  rewrite (first_cell_parsed _ Hparsed). fold text. simpl.
  unfold FastApi.has_marker, Spec.marked.
  destruct (str_contains "Survey results" text) eqn:E1;
    destruct (str_contains "测量成果表" text) eqn:E2; simpl;
    (split; [intros H|split; [intros H|]]);
    try (split; reflexivity);
    try (exfalso; apply H; auto; fail);
    try (destruct H; discriminate);
    eexists; (split; [reflexivity|discriminate]).
Qed.

Lemma C1_position_classification_witness :
  parsed Sample.survey_raw ∧
  FastApi.classify Sample.survey_raw = Ok FastApi.SurveyResults.
Proof.
  assert (parsed Sample.survey_raw) as Hp.
  { split; [|discriminate]. repeat constructor. }
  split; [exact Hp|].
  apply (C1_position_classification Sample.survey_raw Hp).
  left. reflexivity.
Defined.

(** ** The survey layout *)

(** X2.  A table without one of the positions 1 to 4 cannot be selected from:
    the survey branch has no clamp, and the positional selection raises. *)
Lemma survey_select_narrow (env : Env) (df : DataFrame) :
  (length (columns df) < 5)%nat → ∃ msg, FastApi.survey_select env df = Raise (IndexError msg).
Proof.
  intros Hlt. unfold FastApi.survey_select, iloc_col.
  destruct (2 <? length (columns df))%nat eqn:E2; [|by eexists].
  simpl. unfold iloc_cols, df_mask. simpl.
  replace (4 <? length (columns df))%nat with false
    by (symmetry; apply Nat.ltb_ge; lia).
  rewrite !andb_false_r. by eexists.
Qed.

Lemma survey_select_narrow_witness :
  ∃ msg, FastApi.survey_select
           (Sample.env_of Sample.empty_frame Sample.empty_frame Sample.empty_frame
              200 "OK") Sample.empty_frame
         = Raise (IndexError msg).
Proof.
  apply (survey_select_narrow
           (Sample.env_of Sample.empty_frame Sample.empty_frame Sample.empty_frame
              200 "OK") Sample.empty_frame).
  simpl. lia.
Defined.

(** C2, as the code has it.  For every table read with the seven leading
    rows skipped that has at least five columns: when [N] rows remain and
    exactly [M] of them carry, at position 2, a cell that reads as a number,
    the result has exactly [M] rows, namely those rows in their original
    order, each cut down to the cells at positions 1, 2, 3, 4, under the
    four names 测点编号, X坐标, Y坐标, 高程H. *)
Theorem C2_survey_extraction (env : Env) (df : DataFrame) (N M : nat)
    (Hwide : (5 ≤ length (columns df))%nat)
    (HN : len df = N)
    (HM : length (List.filter (Spec.numeric_at_2 env) (rows df)) = M) :
  ∃ extracted_df,
    FastApi.survey_select env df = Ok extracted_df ∧
    len extracted_df = M ∧ (M ≤ N)%nat ∧
    columns extracted_df = [LStr "测点编号"; LStr "X坐标"; LStr "Y坐标"; LStr "高程H"] ∧
    rows extracted_df =
      map Spec.pick_survey (List.filter (Spec.numeric_at_2 env) (rows df)).
Proof.
  unfold FastApi.survey_select, iloc_col.
  rewrite (ltb_true 2) by lia. simpl.
  unfold iloc_cols, df_mask. simpl.
  rewrite (ltb_true 1), (ltb_true 2), (ltb_true 3), (ltb_true 4) by lia. simpl.
  eexists. split; [reflexivity|].
  unfold len. simpl.
  rewrite map_map.
  change (λ x : list cell, to_numeric_notna (text_is_number env) (at_pos x 2))
    with (Spec.numeric_at_2 env).
  rewrite mask_rows_filter.
  repeat split.
  - by rewrite length_map.
  - subst N M. unfold len. apply filter_length_le.
Qed.

Lemma C2_survey_extraction_witness :
  ∃ extracted_df,
    FastApi.survey_select (Sample.env_of Sample.survey_raw Sample.survey_skipped
                             Sample.empty_frame 200 "OK") Sample.survey_skipped
      = Ok extracted_df ∧
    len extracted_df = 4%nat.
Proof.
  destruct (C2_survey_extraction
              (Sample.env_of Sample.survey_raw Sample.survey_skipped
                 Sample.empty_frame 200 "OK")
              Sample.survey_skipped 5 4) as (t & Ht & Hlen & _).
  - simpl. lia.
  - reflexivity.
  - reflexivity.
  - exists t. split; assumption.
Defined.

(** C2 as stated fails on a table that lacks one of the positions 1 to 4:
    the one row of this three-column table reads as a number at position 2
    ([M = 1]), and the selection raises instead of returning one row; the
    handler answers with the response of a parse failure. *)
Lemma C2_narrow_table_counterexample :
  let env := Sample.env_of Sample.narrow_raw Sample.narrow_survey Sample.empty_frame
               200 "OK" in
  length (List.filter (Spec.numeric_at_2 env) (rows Sample.narrow_survey)) = 1%nat ∧
  FastApi.survey_select env Sample.narrow_survey
    = Raise (IndexError "positional indexers are out-of-bounds") ∧
  (FastApi.extract_excel env Sample.inline_request).2
    = FastApi.failure_response (IndexError "positional indexers are out-of-bounds").
Proof. repeat split. Qed.

(** ** The slope-inspection layout *)

(** The fixed positions are listed in increasing order, so the positions
    below a bound form an initial segment of the list. *)
Lemma valid_indices_prefix (ncols : nat) :
  FastApi.valid_indices ncols =
  take (length (FastApi.valid_indices ncols)) FastApi.slope_target_columns.
Proof.
  unfold FastApi.valid_indices, FastApi.slope_target_columns.
  do 14 (destruct ncols as [|ncols]; [reflexivity|]).
  rewrite !filter_cons_True by lia. reflexivity.
Qed.

Lemma valid_indices_bound (ncols : nat) :
  Forall (λ i, i < ncols)%nat (FastApi.valid_indices ncols).
Proof.
  unfold FastApi.valid_indices. apply Forall_forall.
  intros i Hi. by apply list_elem_of_filter in Hi as [Hi _].
Qed.

Lemma valid_indices_length (ncols : nat) :
  (length (FastApi.valid_indices ncols) ≤ 8)%nat.
Proof.
  unfold FastApi.valid_indices.
  etrans; [apply length_filter|]. reflexivity.
Qed.

Lemma iloc_cols_in_range (df : DataFrame) (idxs : list nat) :
  Forall (λ i, i < length (columns df))%nat idxs →
  iloc_cols df idxs =
  Ok {| columns := map (λ j, nth j (columns df) (LInt (Z.of_nat j))) idxs;
        rows := map (take_positions idxs) (rows df) |}.
Proof.
  intros Hall. unfold iloc_cols.
  replace (forallb _ idxs) with true; [done|].
  symmetry. apply forallb_forall. intros j Hj.
  apply Nat.ltb_lt. rewrite Forall_forall in Hall. apply Hall.
  by apply list_elem_of_In.
Qed.

(** C3.  For every table read with its first row as header, [C] columns
    wide: the selected positions are exactly the members of the list
    0, 5, 8, 9, 10, 11, 12, 13 that are below [C]; the result has one column
    for each of them; and its names are the fixed list of names cut to that
    length, so that the k-th selected position is the k-th fixed position and
    carries the k-th fixed name. *)
Theorem C3_slope_clamping (df : DataFrame) :
  let C := length (columns df) in
  let valid := FastApi.valid_indices C in
  (∀ i, i ∈ valid ↔ i ∈ [0; 5; 8; 9; 10; 11; 12; 13]%nat ∧ (i < C)%nat) ∧
  ∃ extracted_df,
    FastApi.slope_select df = Ok extracted_df ∧
    rows extracted_df = map (λ r, map (λ i, nth i r CNaN) valid) (rows df) ∧
    length (columns extracted_df) = length valid ∧
    columns extracted_df = take (length valid) FastApi.new_column_names ∧
    ∀ k, (k < length valid)%nat →
      valid !! k = [0; 5; 8; 9; 10; 11; 12; 13]%nat !! k ∧
      columns extracted_df !! k = FastApi.new_column_names !! k.
Proof.
  intros C valid. split.
  { intros i. unfold valid, FastApi.valid_indices.
    rewrite list_elem_of_filter. unfold FastApi.slope_target_columns. tauto. }
  pose proof (valid_indices_length C) as Hlen8. fold valid in Hlen8.
  assert (length (take (length valid) FastApi.new_column_names) = length valid) as Hnames.
  { rewrite length_take. unfold FastApi.new_column_names. simpl. lia. }
  unfold FastApi.slope_select. fold C. fold valid.
  rewrite (iloc_cols_in_range df valid) by apply valid_indices_bound.
  simpl. unfold set_columns. simpl.
  rewrite length_map, Hnames, Nat.eqb_refl.
  eexists. split; [reflexivity|]. simpl.
  split; [reflexivity|]. split; [exact Hnames|]. split; [reflexivity|].
  intros k Hk. split.
  - unfold valid at 1. rewrite valid_indices_prefix. fold valid.
    by rewrite lookup_take_lt.
  - by rewrite lookup_take_lt.
Qed.

Lemma C3_slope_clamping_witness :
  ∃ extracted_df,
    FastApi.slope_select Sample.nine_columns = Ok extracted_df ∧
    columns extracted_df = [LStr "线路名"; LStr "超欠挖"; LStr "实测X或里程"] ∧
    FastApi.valid_indices 9 !! 2%nat = Some 8%nat.
Proof.
  pose proof (C3_slope_clamping Sample.nine_columns) as H. cbv zeta in H.
  destruct H as (_ & extracted_df & Hsel & _ & _ & Hcols & Hkth).
  exists extracted_df. split; [exact Hsel|]. split; [exact Hcols|].
  refine (proj1 (Hkth 2%nat _)). vm_compute. lia.
Defined.

(** Scenario C: nine columns keep the positions 0, 5 and 8 under the first
    three names. *)
Example slope_nine_columns :
  FastApi.slope_select Sample.nine_columns =
  Ok {| columns := [LStr "线路名"; LStr "超欠挖"; LStr "实测X或里程"];
        rows := [ [CStr "K1"; CInt 5; CInt 8]; [CStr "K2"; CInt 5; CInt 2] ] |}.
Proof. reflexivity. Qed.

(** ** Zero extracted rows *)

Lemma format_name_known (l : FastApi.layout) : FastApi.format_name l ≠ "未知".
Proof. destruct l; discriminate. Qed.

(** C4, as the code has it.  In the FastAPI service, for every request whose
    file content is obtained and whose classification and extraction return
    a table of zero rows, the response has [success = false],
    [row_count = 0], the detected layout's name, empty artifact fields and
    the message 未能提取到任何数据; it differs from every response of the
    handler of exceptions, which is what a parse failure produces. *)
Theorem C4_zero_extraction (env : Env) (request : FastApi.ExtractRequest)
    (file_content : bytes) (extracted_df : DataFrame) (l : FastApi.layout)
    (Hcontent : (FastApi.get_file_content env request).2 = Ok file_content)
    (Hextract : FastApi.extract_table env file_content = Ok (extracted_df, l))
    (Hzero : len extracted_df = 0%nat) :
  let response := (FastApi.extract_excel env request).2 in
  FastApi.success response = false ∧
  FastApi.row_count response = 0%nat ∧
  FastApi.message response = "未能提取到任何数据" ∧
  FastApi.format_type response = FastApi.format_name l ∧
  FastApi.resp_file_base64 response = EmptyString ∧
  FastApi.filename response = EmptyString ∧
  ∀ e, response ≠ FastApi.failure_response e.
Proof.
  unfold FastApi.extract_excel, FastApi.try_extract.
  destruct (FastApi.get_file_content env request) as [trace r].
  simpl in Hcontent. subst r. simpl.
  rewrite Hextract. simpl. unfold FastApi.respond. rewrite Hzero. simpl.
  repeat split.
  intros e Heq. apply (format_name_known l).
  by injection Heq.
Qed.

Lemma C4_zero_extraction_witness :
  let response :=
    (FastApi.extract_excel
       (Sample.env_of Sample.survey_raw Sample.survey_notes Sample.empty_frame 200 "OK")
       Sample.inline_request).2 in
  FastApi.success response = false ∧ FastApi.row_count response = 0%nat ∧
  FastApi.format_type response = "测量成果表".
Proof.
  destruct (C4_zero_extraction
    (Sample.env_of Sample.survey_raw Sample.survey_notes Sample.empty_frame 200 "OK")
    Sample.inline_request [] {| columns := FastApi.survey_column_names; rows := [] |}
    FastApi.SurveyResults eq_refl eq_refl eq_refl) as (Hs & Hn & _ & Hf & _).
  split; [exact Hs|]. split; [exact Hn|exact Hf].
Defined.

(** C4 as stated fails in the Flask service, which has no test for an empty
    result: a sheet that holds the header of the inspection layout and no
    data row is serialised and answered with status 200, a success body and
    a row count of zero. *)
Lemma C4_flask_zero_rows_counterexample :
  FlaskApp.extract_excel
    (Sample.env_of Sample.empty_frame Sample.empty_frame Sample.header_only 200 "OK")
    (FlaskApp.Data Sample.inline_payload)
  = ([], (FlaskApp.Extracted "成功提取 0 行数据" "边坡检查表"
            [LStr "序号"; LStr "桩号"; LStr "检查时间"] 0 "UEsDBA==", 200%Z)).
Proof. vm_compute. reflexivity. Qed.

(** ** Where the file comes from *)

Lemma opt_truthy_Some (o : option string) :
  opt_truthy o = true → ∃ b, o = Some b ∧ truthy b = true.
Proof. destruct o as [b|]; [|discriminate]. intros. by exists b. Qed.

(** C5, as the code has it.  In both services a request with a non-empty
    [file_base64] is served from the inline string and fetches no URL,
    whatever [file_url] holds.  When no source yields a frame the request
    does not succeed: the Flask service answers 400 when neither field is
    supplied and 500 when the supplied source raises; the FastAPI service
    answers with [success = false]. *)
Theorem C5_input_source (env : Env) :
  (∀ request, opt_truthy (FastApi.file_base64 request) = true →
     ∃ b, FastApi.file_base64 request = Some b ∧
          FastApi.get_file_content env request = ([], b64decode env b) ∧
          (FastApi.extract_excel env request).1 = []) ∧
  (∀ data, opt_truthy (FlaskApp.file_base64 data) = true →
     ∃ b, FlaskApp.file_base64 data = Some b ∧
          FlaskApp.read_source env data
            = ([], Some (FlaskApp.read_excel_from_base64 env b)) ∧
          (FlaskApp.extract_excel env (FlaskApp.Data data)).1 = []) ∧
  (∀ request e, (FastApi.get_file_content env request).2 = Raise e →
     FastApi.success (FastApi.extract_excel env request).2 = false) ∧
  (∀ data, opt_truthy (FlaskApp.file_base64 data) = false →
           opt_truthy (FlaskApp.file_url data) = false →
     FlaskApp.extract_excel env (FlaskApp.Data data)
       = ([], (FlaskApp.Failed "请提供 file_url 或 file_base64", 400%Z))) ∧
  (∀ data e, (FlaskApp.read_source env data).2 = Some (Raise e) →
     (FlaskApp.extract_excel env (FlaskApp.Data data)).2
       = (FlaskApp.Failed ("处理失败: " +:+ exn_str e), 500%Z)).
Proof.
  repeat split.
  - intros request Hb.
    destruct (opt_truthy_Some _ Hb) as (b & Hsome & _). exists b.
    unfold FastApi.extract_excel, FastApi.try_extract, FastApi.get_file_content.
    rewrite Hb, Hsome. simpl. repeat split.
  - intros data Hb.
    destruct (opt_truthy_Some _ Hb) as (b & Hsome & _). exists b.
    unfold FlaskApp.extract_excel, FlaskApp.try_extract, FlaskApp.read_source.
    rewrite Hb, Hsome. simpl. repeat split.
  - intros request e He.
    unfold FastApi.extract_excel, FastApi.try_extract.
    destruct (FastApi.get_file_content env request) as [trace r].
    simpl in He. subst r. reflexivity.
  - intros data Hb Hu.
    unfold FlaskApp.extract_excel, FlaskApp.try_extract, FlaskApp.read_source.
    rewrite Hb, Hu. reflexivity.
  - intros data e He.
    unfold FlaskApp.extract_excel, FlaskApp.try_extract.
    destruct (FlaskApp.read_source env data) as [trace r].
    simpl in He. subst r. reflexivity.
Qed.

Lemma C5_input_source_witness :
  let env := Sample.env_of Sample.survey_raw Sample.survey_skipped Sample.header_only
               404 "Not Found" in
  (FastApi.extract_excel env Sample.inline_request).1 = [] ∧
  (FlaskApp.extract_excel env (FlaskApp.Data Sample.inline_payload)).1 = [] ∧
  FastApi.success (FastApi.extract_excel env Sample.url_request).2 = false ∧
  (FlaskApp.extract_excel env (FlaskApp.Data Sample.no_source_payload)).2.2 = 400%Z ∧
  (FlaskApp.extract_excel env (FlaskApp.Data Sample.url_payload)).2.2 = 500%Z.
Proof.
  intros env.
  destruct (C5_input_source env) as (Hinline & Hinline' & Hfail & Hnone & Hraise).
  split; [|split; [|split; [|split]]].
  - destruct (Hinline Sample.inline_request eq_refl) as (b & _ & _ & Htrace).
    exact Htrace.
  - destruct (Hinline' Sample.inline_payload eq_refl) as (b & _ & _ & Htrace).
    exact Htrace.
  - exact (Hfail Sample.url_request _ eq_refl).
  - by rewrite (Hnone Sample.no_source_payload eq_refl eq_refl).
  - by rewrite (Hraise Sample.url_payload _ eq_refl).
Defined.

(** C5 as stated fails in the Flask service when the only source is a URL
    that answers 404: no source yields bytes, and the answer is the
    catch-all's status 500, not a status of the client-error class. *)
Lemma C5_flask_download_failure_counterexample :
  FlaskApp.extract_excel
    (Sample.env_of Sample.empty_frame Sample.empty_frame Sample.header_only 404
       "Not Found")
    (FlaskApp.Data Sample.url_payload)
  = ([HttpGet "http://files.example/sheet.xlsx"],
     (FlaskApp.Failed
        "处理失败: 404 Client Error: Not Found for url: http://files.example/sheet.xlsx",
      500%Z)).
Proof. vm_compute. reflexivity. Qed.

(** ** The name-based classifier *)

Lemma detect_loop_Some formats (header : gset label) name cols :
  FlaskApp.detect_loop formats header = Some (name, cols) ↔
  ∃ info, Spec.first_match formats header name info ∧
          cols = FlaskApp.extract_columns info.
Proof.
  induction formats as [|[n i] formats IH]; simpl.
  - split; [discriminate|].
    intros (info & (before & after & Heq & _) & _). by destruct before.
  - case_decide as Hsub.
    + split.
      * intros [= <- <-]. exists i. split; [|done].
        exists [], formats. by repeat split.
      * intros (info & (before & after & Heq & Hm & Hnone) & ->).
        destruct before as [|p before]; simpl in Heq.
        -- by injection Heq as <- <- _.
        -- injection Heq as <- _. apply Forall_cons_1 in Hnone as [Hp _].
           by destruct Hp.
    + rewrite IH. split.
      * intros (info & (before & after & Heq & Hm & Hnone) & ->).
        exists info. split; [|done].
        exists ((n, i) :: before), after. rewrite Heq. repeat split; [done|].
        by constructor.
      * intros (info & (before & after & Heq & Hm & Hnone) & ->).
        exists info. split; [|done].
        destruct before as [|p before]; simpl in Heq.
        -- injection Heq as -> -> _. by destruct Hsub.
        -- injection Heq as _ ->. apply Forall_cons_1 in Hnone as [_ Hnone].
           by exists before, after.
Qed.

Lemma detect_loop_None formats (header : gset label) :
  FlaskApp.detect_loop formats header = None ↔
  Forall (λ p, ¬ Spec.matches header p.2) formats.
Proof.
  induction formats as [|[n i] formats IH]; simpl.
  - split; [by constructor|done].
  - case_decide as Hsub.
    + split; [discriminate|]. intros H. apply Forall_cons_1 in H as [H _]. by destruct H.
    + rewrite IH. split; [by constructor|].
      intros H. by apply Forall_cons_1 in H as [_ H].
Qed.

(** C7.  For every parsed table with header: the classifier returns the
    layout [name] with that layout's column list exactly when [name] is the
    first entry of the static format table, in its enumeration order, whose
    required identifier columns all occur among the header's column names;
    when no entry matches, classification is unrecognised, the default
    column list is the full column list of the table, and the columns to
    extract are the caller's list when one is supplied (and is not empty)
    and the full column list otherwise. *)
Theorem C7_name_classification (df : DataFrame) :
  let header : gset label := list_to_set (columns df) in
  (∀ name cols,
     FlaskApp.detect_excel_format df = (Some name, cols) ↔
     ∃ info, Spec.first_match FlaskApp.EXCEL_FORMATS header name info ∧
             cols = FlaskApp.extract_columns info) ∧
  (Forall (λ p, ¬ Spec.matches header p.2) FlaskApp.EXCEL_FORMATS →
     FlaskApp.detect_excel_format df = (None, columns df) ∧
     (∀ c cs, FlaskApp.columns_to_extract (Some (c :: cs))
                (FlaskApp.detect_excel_format df).2 = c :: cs) ∧
     FlaskApp.columns_to_extract None (FlaskApp.detect_excel_format df).2 = columns df) ∧
  (FlaskApp.detect_excel_format df = (None, columns df) ∨
   ∃ name cols, FlaskApp.detect_excel_format df = (Some name, cols)).
Proof.
  intros header. unfold FlaskApp.detect_excel_format. fold header.
  split; [|split].
  - intros name cols. rewrite <- detect_loop_Some.
    destruct (FlaskApp.detect_loop FlaskApp.EXCEL_FORMATS header) as [[n c]|].
    + split; congruence.
    + split; discriminate.
  - intros Hnone. apply detect_loop_None in Hnone. rewrite Hnone. done.
  - destruct (FlaskApp.detect_loop FlaskApp.EXCEL_FORMATS header) as [[n c]|];
      [right; by exists n, c|by left].
Qed.

Lemma C7_name_classification_witness :
  FlaskApp.detect_excel_format Sample.other_sheet = (None, [LStr "a"; LStr "b"]) ∧
  FlaskApp.columns_to_extract (Some [LStr "b"])
    (FlaskApp.detect_excel_format Sample.other_sheet).2 = [LStr "b"] ∧
  FlaskApp.columns_to_extract None
    (FlaskApp.detect_excel_format Sample.other_sheet).2 = [LStr "a"; LStr "b"].
Proof.
  pose proof (C7_name_classification Sample.other_sheet) as H. cbv zeta in H.
  destruct H as (_ & Hnone & _).
  destruct Hnone as (Hdetect & Hcustom & Hfull).
  { apply detect_loop_None. vm_compute. reflexivity. }
  split; [exact Hdetect|]. split; [exact (Hcustom _ _)|exact Hfull].
Defined.

(** A header that carries the identifier columns of both layouts is given
    the first of the table. *)
Example detect_first_wins :
  FlaskApp.detect_excel_format
    {| columns := [LStr "点号"; LStr "X坐标"; LStr "序号"; LStr "桩号"]; rows := [] |}
  = (Some "边坡检查表",
     [LStr "序号"; LStr "桩号"; LStr "检查时间"; LStr "责任人"; LStr "问题描述";
      LStr "整改措施"]).
Proof. vm_compute. reflexivity. Qed.

Example detect_unrecognised :
  FlaskApp.detect_excel_format Sample.other_sheet = (None, [LStr "a"; LStr "b"]).
Proof. vm_compute. reflexivity. Qed.

(** ** No requested column in the header *)

Lemma available_columns_nil (df : DataFrame) (to_extract : list label) :
  (∀ col, col ∈ to_extract → col ∉ columns df) →
  FlaskApp.available_columns df to_extract = [].
Proof.
  intros Hnone. unfold FlaskApp.available_columns.
  induction to_extract as [|c cs IH]; [done|].
  rewrite filter_cons_False.
  - apply IH. intros col Hcol. apply Hnone. by right.
  - apply Hnone. by left.
Qed.

Lemma str_contains_unfold (needle hay : string) :
  str_contains needle hay =
  String.prefix needle hay ||
  match hay with EmptyString => false | String _ rest => str_contains needle rest end.
Proof. by destruct hay. Qed.

Lemma prefix_app_l (x a b : string) :
  String.prefix x a = true → String.prefix x (a +:+ b) = true.
Proof.
  revert a. induction x as [|c x IH]; intros a; [by destruct a, b|].
  destruct a as [|d a]; simpl; [discriminate|].
  destruct (ascii_dec c d); [apply IH|discriminate].
Qed.

Lemma prefix_refl (x : string) : String.prefix x x = true.
Proof. induction x as [|c x IH]; simpl; [done|]. by destruct (ascii_dec c c). Qed.

Lemma str_contains_cons (x : string) (d : ascii) (h : string) :
  str_contains x h = true → str_contains x (String d h) = true.
Proof. intros Hh. rewrite str_contains_unfold. by rewrite Hh, orb_true_r. Qed.

Lemma str_contains_app_l (x a b : string) :
  str_contains x a = true → str_contains x (a +:+ b) = true.
Proof.
  induction a as [|d a IH].
  - rewrite (str_contains_unfold x EmptyString), orb_false_r. intros Hp.
    rewrite str_contains_unfold. by rewrite (prefix_app_l x EmptyString b Hp).
  - rewrite (str_contains_unfold x (String d a)). intros [Hp|Hc]%orb_true_iff.
    + rewrite str_contains_unfold. by rewrite (prefix_app_l x (String d a) b Hp).
    + change (String d a +:+ b) with (String d (a +:+ b)).
      by apply str_contains_cons, IH.
Qed.

Lemma str_contains_app_r (x a b : string) :
  str_contains x b = true → str_contains x (a +:+ b) = true.
Proof.
  intros Hb. induction a as [|d a IH]; [done|].
  change (String d a +:+ b) with (String d (a +:+ b)).
  by apply str_contains_cons.
Qed.

Lemma str_contains_refl (x : string) : str_contains x x = true.
Proof. rewrite str_contains_unfold. by rewrite prefix_refl. Qed.

Lemma str_contains_concat (sep x : string) (l : list string) :
  x ∈ l → str_contains x (String.concat sep l) = true.
Proof.
  induction l as [|y l IH]; [by intros ?%not_elem_of_nil|].
  intros [->|Hin]%elem_of_cons; destruct l as [|z l]; simpl.
  - apply str_contains_refl.
  - apply str_contains_app_l, str_contains_refl.
  - by apply not_elem_of_nil in Hin.
  - apply str_contains_app_r, str_contains_app_r. by apply IH.
Qed.

(** Every element's [repr] can be read in the [repr] of the list. *)
Lemma repr_list_lists {A} (repr : A → string) (l : list A) (x : A) :
  x ∈ l → str_contains (repr x) (repr_list repr l) = true.
Proof.
  intros Hin. unfold repr_list.
  apply str_contains_app_r, str_contains_app_l, str_contains_concat.
  by apply list_elem_of_fmap_2.
Qed.

(** C8.  In the Flask service, for every request whose source is read into
    a frame and of whose columns to extract (the caller's, or else the
    default ones) none occurs in the header of the frame: the answer has
    status 400 and a body with [success] false whose message is the fixed
    text followed by the list of the frame's own column labels, each of
    which can be read in it; it is not a success body of any kind, and
    nothing is serialised. *)
Theorem C8_empty_selection (env : Env) (data : FlaskApp.Payload) (df : DataFrame)
    (Hread : (FlaskApp.read_source env data).2 = Some (Ok df))
    (Hnone : ∀ col,
       col ∈ FlaskApp.columns_to_extract (FlaskApp.custom_columns data)
               (FlaskApp.detect_excel_format df).2 →
       col ∉ columns df) :
  let response := (FlaskApp.extract_excel env (FlaskApp.Data data)).2 in
  let message := "未找到指定的列。可用列: " +:+ repr_list (repr_label env) (columns df) in
  response = (FlaskApp.Failed message, 400%Z) ∧
  (∀ col, col ∈ columns df → str_contains (repr_label env col) message = true) ∧
  FlaskApp.success response.1 = false ∧
  (400 ≤ response.2 < 500)%Z ∧
  ∀ message' detected_format extracted_columns row_count file_base64 status,
    response ≠ (FlaskApp.Extracted message' detected_format extracted_columns
                  row_count file_base64, status).
Proof.
  intros response message.
  assert (response = (FlaskApp.Failed message, 400%Z)) as Hresp.
  { unfold response, FlaskApp.extract_excel, FlaskApp.try_extract.
    destruct (FlaskApp.read_source env data) as [trace r].
    simpl in Hread. subst r. simpl.
    unfold FlaskApp.extract_from.
    destruct (FlaskApp.detect_excel_format df) as [detected default_columns].
    simpl in Hnone. by rewrite (available_columns_nil _ _ Hnone). }
  split; [exact Hresp|]. split.
  { intros col Hcol. unfold message.
    by apply str_contains_app_r, repr_list_lists. }
  rewrite Hresp. cbn [fst snd FlaskApp.success]. repeat split; try lia; done.
Qed.

Lemma C8_empty_selection_witness :
  (FlaskApp.extract_excel
     (Sample.env_of Sample.empty_frame Sample.empty_frame Sample.other_sheet 200 "OK")
     (FlaskApp.Data Sample.absent_columns_payload)).2
  = (FlaskApp.Failed "未找到指定的列。可用列: ['a', 'b']", 400%Z).
Proof.
  refine (proj1 (C8_empty_selection
    (Sample.env_of Sample.empty_frame Sample.empty_frame Sample.other_sheet 200 "OK")
    Sample.absent_columns_payload Sample.other_sheet eq_refl _)).
  intros col Hcol Hin. vm_compute in Hcol.
  apply list_elem_of_In in Hcol. apply list_elem_of_In in Hin.
  simpl in Hcol, Hin.
  destruct Hcol as [<-|[<-|[]]]; destruct Hin as [Hin|[Hin|[]]]; discriminate Hin.
Defined.

(** ** The shape of the FastAPI response *)

Lemma b64encode_nonempty (bs : bytes) : bs ≠ [] → b64encode bs ≠ EmptyString.
Proof. destruct bs as [|a [|b [|c rest]]]; [done|discriminate..]. Qed.

Lemma make_filename_nonempty (format_type timestamp : string) :
  FastApi.make_filename format_type timestamp ≠ EmptyString.
Proof. discriminate. Qed.

(** C9.  For every request to the FastAPI service, given that the writer
    never returns an empty byte string (a workbook is a ZIP container): the
    response either has [success] true with a non-empty encoded artifact, a
    non-empty filename, and the column names, row count and layout name of
    the table that was extracted and serialised; or it has [success] false
    with the artifact and the filename empty, no column names and a row
    count of zero. *)
Theorem C9_outcome_never_partial (env : Env) (request : FastApi.ExtractRequest)
    (Hwriter : ∀ df, to_excel env df ≠ Ok []) :
  let response := (FastApi.extract_excel env request).2 in
  (FastApi.success response = true ∧
   FastApi.resp_file_base64 response ≠ EmptyString ∧
   FastApi.filename response ≠ EmptyString ∧
   ∃ file_content extracted_df l excel_bytes,
     (FastApi.get_file_content env request).2 = Ok file_content ∧
     FastApi.extract_table env file_content = Ok (extracted_df, l) ∧
     to_excel env extracted_df = Ok excel_bytes ∧
     FastApi.resp_file_base64 response = b64encode excel_bytes ∧
     FastApi.column_names response = columns extracted_df ∧
     FastApi.row_count response = len extracted_df ∧
     (0 < FastApi.row_count response)%nat ∧
     FastApi.format_type response = FastApi.format_name l)
  ∨
  (FastApi.success response = false ∧
   FastApi.resp_file_base64 response = EmptyString ∧
   FastApi.filename response = EmptyString ∧
   FastApi.column_names response = [] ∧
   FastApi.row_count response = 0%nat).
Proof.
  unfold FastApi.extract_excel, FastApi.try_extract.
  destruct (FastApi.get_file_content env request) as [trace [file_content|e]];
    simpl; [|right; by repeat split].
  destruct (FastApi.extract_table env file_content) as [[extracted_df l]|e] eqn:Hext;
    simpl; [|right; by repeat split].
  unfold FastApi.respond.
  destruct (len extracted_df =? 0)%nat eqn:Hlen; [right; by repeat split|].
  unfold FastApi.success_response.
  destruct (to_excel env extracted_df) as [excel_bytes|e] eqn:Hser;
    simpl; [|right; by repeat split].
  left. split; [done|]. split.
  { apply b64encode_nonempty. intros ->. by apply (Hwriter extracted_df). }
  split; [apply make_filename_nonempty|].
  exists file_content, extracted_df, l, excel_bytes.
  apply Nat.eqb_neq in Hlen. repeat split; try done. lia.
Qed.

Lemma C9_outcome_never_partial_witness :
  let response :=
    (FastApi.extract_excel
       (Sample.env_of Sample.survey_raw Sample.survey_skipped Sample.empty_frame 200 "OK")
       Sample.inline_request).2 in
  FastApi.success response = true ∧
  FastApi.resp_file_base64 response ≠ EmptyString ∧
  FastApi.filename response ≠ EmptyString.
Proof.
  destruct (C9_outcome_never_partial
    (Sample.env_of Sample.survey_raw Sample.survey_skipped Sample.empty_frame 200 "OK")
    Sample.inline_request) as [(Hs & Ha & Hf & _)|(Hs & _)].
  - intros df. discriminate.
  - split; [exact Hs|]. split; [exact Ha|exact Hf].
  - discriminate Hs.
Defined.

(** Scenario A, end to end. *)
Example survey_scenario :
  (FastApi.extract_excel
     (Sample.env_of Sample.survey_raw Sample.survey_skipped Sample.empty_frame 200 "OK")
     Sample.inline_request).2
  = {| FastApi.success := true;
       FastApi.format_type := "测量成果表";
       FastApi.row_count := 4;
       FastApi.resp_file_base64 := "UEsDBA==";
       FastApi.filename := "提取数据_测量成果表_20240101_120000.xlsx";
       FastApi.message := "识别为【测量成果表】，成功提取 4 行数据";
       FastApi.column_names := [LStr "测点编号"; LStr "X坐标"; LStr "Y坐标"; LStr "高程H"] |}.
Proof. vm_compute. reflexivity. Qed.

(** ** Validation of the FastAPI request *)

(** C10.  In the FastAPI service [file_url] is a required field of the
    request model and [file_base64] an optional one: every request body
    without [file_url] is rejected by validation, whatever [file_base64]
    holds (absent or [null] alike), so the handler does not run and nothing
    is fetched; yet the
    handler, given a non-empty [file_base64], reads the inline string before
    it looks at [file_url] at all. *)
Theorem C10_file_url_required (env : Env) (raw : FastApi.RawRequest)
    (Hno_url : FastApi.raw_file_url raw = FastApi.JAbsent ∨
               FastApi.raw_file_url raw = FastApi.JNull) :
  FastApi.validate raw = None ∧
  FastApi.post_extract env raw = ([], FastApi.Unprocessable) ∧
  ∀ b url, FastApi.raw_file_base64 raw = FastApi.JString b → truthy b = true →
    FastApi.get_file_content env
      {| FastApi.file_url := url; FastApi.file_base64 := Some b |}
    = ([], b64decode env b).
Proof.
  unfold FastApi.post_extract, FastApi.validate.
  destruct Hno_url as [-> | ->]; repeat split;
    intros b url _ Hb; unfold FastApi.get_file_content; simpl; by rewrite Hb.
Qed.

Lemma C10_file_url_required_witness :
  FastApi.post_extract
    (Sample.env_of Sample.survey_raw Sample.survey_skipped Sample.empty_frame 200 "OK")
    Sample.base64_only
  = ([], FastApi.Unprocessable).
Proof.
  exact (proj1 (proj2 (C10_file_url_required
    (Sample.env_of Sample.survey_raw Sample.survey_skipped Sample.empty_frame 200 "OK")
    Sample.base64_only (or_introl eq_refl)))).
Defined.

(** The same body with any URL added passes validation and is served from
    the inline string. *)
Example base64_with_url_is_served :
  FastApi.post_extract
    (Sample.env_of Sample.survey_raw Sample.survey_skipped Sample.empty_frame 200 "OK")
    {| FastApi.raw_file_url := FastApi.JString EmptyString;
       FastApi.raw_file_base64 := FastApi.JString "UEsDBA==" |}
  = ([], FastApi.Handled
           {| FastApi.success := true;
              FastApi.format_type := "测量成果表";
              FastApi.row_count := 4;
              FastApi.resp_file_base64 := "UEsDBA==";
              FastApi.filename := "提取数据_测量成果表_20240101_120000.xlsx";
              FastApi.message := "识别为【测量成果表】，成功提取 4 行数据";
              FastApi.column_names :=
                [LStr "测点编号"; LStr "X坐标"; LStr "Y坐标"; LStr "高程H"] |}).
Proof. vm_compute. reflexivity. Qed.

(** X1.  In the FastAPI service an [HTTPException] raised while the file content
    is obtained is caught by the handler's own [except Exception]: the
    answer is an ordinary response with [success] false that carries the
    status and the detail in its message, and no HTTP error is sent. *)
Lemma fastapi_http_exception_caught (env : Env) (request : FastApi.ExtractRequest)
    (status : Z) (detail : string)
    (Hraise : (FastApi.get_file_content env request).2
              = Raise (HTTPException status detail)) :
  (FastApi.post_extract env (FastApi.RawRequest_of request)).2 =
  FastApi.Handled
    {| FastApi.success := false;
       FastApi.format_type := "未知";
       FastApi.row_count := 0;
       FastApi.resp_file_base64 := EmptyString;
       FastApi.filename := EmptyString;
       FastApi.message := "解析Excel失败: " +:+ pretty status +:+ ": " +:+ detail;
       FastApi.column_names := [] |}.
Proof.
  unfold FastApi.post_extract, FastApi.validate, FastApi.RawRequest_of. simpl.
  replace (match match FastApi.file_base64 request with
                 | Some b => FastApi.JString b
                 | None => FastApi.JAbsent
                 end with
           | FastApi.JString b => Some b
           | _ => None
           end) with (FastApi.file_base64 request)
    by (by destruct (FastApi.file_base64 request)).
  replace {| FastApi.file_url := FastApi.file_url request;
             FastApi.file_base64 := FastApi.file_base64 request |} with request
    by (by destruct request).
  unfold FastApi.extract_excel, FastApi.try_extract.
  destruct (FastApi.get_file_content env request) as [trace r].
  simpl in Hraise. subst r. reflexivity.
Qed.

Lemma fastapi_http_exception_caught_witness :
  (FastApi.post_extract
     (Sample.env_of Sample.survey_raw Sample.survey_skipped Sample.empty_frame 404
        "Not Found")
     (FastApi.RawRequest_of Sample.url_request)).2 =
  FastApi.Handled
    {| FastApi.success := false;
       FastApi.format_type := "未知";
       FastApi.row_count := 0;
       FastApi.resp_file_base64 := EmptyString;
       FastApi.filename := EmptyString;
       FastApi.message := "解析Excel失败: 400: 下载文件失败: HTTP 404";
       FastApi.column_names := [] |}.
Proof.
  exact (fastapi_http_exception_caught
           (Sample.env_of Sample.survey_raw Sample.survey_skipped Sample.empty_frame 404
              "Not Found")
           Sample.url_request 400 "下载文件失败: HTTP 404" eq_refl).
Defined.

(** In the FastAPI service the [HTTPException] raised for a request without
    a source is caught by the handler's own [except Exception]. *)
Example fastapi_no_source :
  FastApi.extract_excel
    (Sample.env_of Sample.survey_raw Sample.survey_skipped Sample.empty_frame 200 "OK")
    {| FastApi.file_url := EmptyString; FastApi.file_base64 := None |}
  = ([], FastApi.failure_response (HTTPException 400 "请提供file_url或file_base64")).
Proof. reflexivity. Qed.

Example b64encode_Man : b64encode [x4d; x61; x6e] = "TWFu".
Proof. reflexivity. Qed.

Example b64encode_Ma : b64encode [x4d; x61] = "TWE=".
Proof. reflexivity. Qed.

Example b64encode_M : b64encode [x4d] = "TQ==".
Proof. reflexivity. Qed.

Example contains_marker : str_contains "测量成果表" "XX 测量成果表 2024" = true.
Proof. reflexivity. Qed.

Example str_http : exn_str (HTTPException 400 "x") = "400: x".
Proof. reflexivity. Qed.

(** * Further properties of the two handlers *)

(** ** The FastAPI handler, end to end *)

Lemma has_marker_marked (text : string) :
  FastApi.has_marker text = true ↔ Spec.marked text.
Proof. unfold FastApi.has_marker, Spec.marked. apply orb_true_iff. Qed.

Lemma classify_marked (df_raw : DataFrame) :
  parsed df_raw → Spec.marked (Spec.first_cell_text df_raw) →
  FastApi.classify df_raw = Ok FastApi.SurveyResults.
Proof.
  intros Hp Hm. unfold FastApi.classify. rewrite (first_cell_parsed _ Hp).
  apply has_marker_marked in Hm. cbn [mbind result_bind]. by rewrite Hm.
Qed.

Lemma classify_unmarked (df_raw : DataFrame) :
  parsed df_raw → ¬ Spec.marked (Spec.first_cell_text df_raw) →
  FastApi.classify df_raw = Ok FastApi.SlopeInspection.
Proof.
  intros Hp Hm. unfold FastApi.classify. rewrite (first_cell_parsed _ Hp).
  cbn [mbind result_bind].
  destruct (FastApi.has_marker _) eqn:E; [|done].
  by apply has_marker_marked in E.
Qed.

Lemma survey_select_wide (env : Env) (df : DataFrame) :
  (5 ≤ length (columns df))%nat →
  FastApi.survey_select env df =
  Ok {| columns := FastApi.survey_column_names;
        rows := map Spec.pick_survey (List.filter (Spec.numeric_at_2 env) (rows df)) |}.
Proof.
  intros Hwide. unfold FastApi.survey_select, iloc_col.
  rewrite (ltb_true 2) by lia. cbn [mbind result_bind].
  unfold iloc_cols, df_mask. cbn [columns rows forallb FastApi.survey_target_columns].
  rewrite (ltb_true 1), (ltb_true 2), (ltb_true 3), (ltb_true 4) by lia.
  cbn [andb mbind result_bind]. unfold set_columns. cbn [columns rows].
  rewrite map_map.
  change (λ x : list cell, to_numeric_notna (text_is_number env) (at_pos x 2))
    with (Spec.numeric_at_2 env).
  by rewrite mask_rows_filter.
Qed.

Lemma survey_select_Ok_wide (env : Env) (df extracted_df : DataFrame) :
  FastApi.survey_select env df = Ok extracted_df → (5 ≤ length (columns df))%nat.
Proof.
  intros Hok. destruct (le_lt_dec 5 (length (columns df))) as [|Hlt]; [done|].
  exfalso. revert Hok. unfold FastApi.survey_select, iloc_col.
  destruct (2 <? length (columns df))%nat eqn:E2; [|discriminate].
  cbn [mbind result_bind]. unfold iloc_cols, df_mask.
  cbn [columns rows forallb FastApi.survey_target_columns].
  replace (4 <? length (columns df))%nat with false
    by (symmetry; apply Nat.ltb_ge; lia).
  rewrite !andb_false_r. discriminate.
Qed.

Lemma extract_excel_from_table (env : Env) (request : FastApi.ExtractRequest)
    (file_content : bytes) (extracted_df : DataFrame) (l : FastApi.layout) :
  (FastApi.get_file_content env request).2 = Ok file_content →
  FastApi.extract_table env file_content = Ok (extracted_df, l) →
  (FastApi.extract_excel env request).2 =
  match FastApi.respond env extracted_df l with
  | Ok response => response
  | Raise e => FastApi.failure_response e
  end.
Proof.
  intros Hcontent Hextract. unfold FastApi.extract_excel, FastApi.try_extract.
  destruct (FastApi.get_file_content env request) as [trace r].
  cbn [snd] in Hcontent. subst r. cbn [snd mbind result_bind].
  by rewrite Hextract.
Qed.

Lemma extract_table_survey (env : Env) (file_content : bytes) (df_raw df : DataFrame) :
  read_excel env None 0 file_content = Ok df_raw →
  parsed df_raw → Spec.marked (Spec.first_cell_text df_raw) →
  read_excel env None 7 file_content = Ok df →
  FastApi.extract_table env file_content =
  match FastApi.survey_select env df with
  | Ok extracted_df => Ok (extracted_df, FastApi.SurveyResults)
  | Raise e => Raise e
  end.
Proof.
  intros Hraw Hp Hm Hread. unfold FastApi.extract_table.
  rewrite Hraw. cbn [mbind result_bind].
  rewrite (classify_marked _ Hp Hm). cbn [mbind result_bind].
  rewrite Hread. cbn [mbind result_bind]. by destruct (FastApi.survey_select env df).
Qed.

(** X3.  The survey layout, end to end.  When the content is obtained, the
    sheet read in full carries a marker in its first cell, and the sheet
    read with the seven leading rows skipped has at least five columns, the
    answer is decided by the rows that read as a number at position 2:
    with none, the no-data response under the layout's name; with some, a
    success response whose row count is their number, whose artifact is the
    base64 text of what the writer returned and whose column names are the
    four fixed ones, or, when the writer raises, the response of a
    failure. *)
Theorem survey_request_outcome (env : Env) (request : FastApi.ExtractRequest)
    (file_content : bytes) (df_raw df : DataFrame)
    (Hcontent : (FastApi.get_file_content env request).2 = Ok file_content)
    (Hraw : read_excel env None 0 file_content = Ok df_raw)
    (Hparsed : parsed df_raw)
    (Hmarked : Spec.marked (Spec.first_cell_text df_raw))
    (Hread : read_excel env None 7 file_content = Ok df)
    (Hwide : (5 ≤ length (columns df))%nat) :
  let kept := List.filter (Spec.numeric_at_2 env) (rows df) in
  let extracted_df :=
    {| columns := [LStr "测点编号"; LStr "X坐标"; LStr "Y坐标"; LStr "高程H"];
       rows := map Spec.pick_survey kept |} in
  let response := (FastApi.extract_excel env request).2 in
  (kept = [] → response = FastApi.no_data_response FastApi.SurveyResults) ∧
  (kept ≠ [] → ∀ excel_bytes, to_excel env extracted_df = Ok excel_bytes →
     response =
     {| FastApi.success := true;
        FastApi.format_type := "测量成果表";
        FastApi.row_count := length kept;
        FastApi.resp_file_base64 := b64encode excel_bytes;
        FastApi.filename := "提取数据_测量成果表_" +:+ strftime_now env +:+ ".xlsx";
        FastApi.message :=
          "识别为【测量成果表】，成功提取 " +:+ pretty (length kept) +:+ " 行数据";
        FastApi.column_names :=
          [LStr "测点编号"; LStr "X坐标"; LStr "Y坐标"; LStr "高程H"] |}) ∧
  (kept ≠ [] → ∀ e, to_excel env extracted_df = Raise e →
     response = FastApi.failure_response e).
Proof.
  intros kept extracted_df response.
  assert (FastApi.extract_table env file_content
          = Ok (extracted_df, FastApi.SurveyResults)) as Hextract.
  { rewrite (extract_table_survey env file_content df_raw df Hraw Hparsed Hmarked Hread).
    by rewrite (survey_select_wide env df Hwide). }
  unfold response.
  rewrite (extract_excel_from_table env request file_content _ _ Hcontent Hextract).
  unfold FastApi.respond, FastApi.success_response, len.
  cbn [rows columns extracted_df]. rewrite length_map.
  split; [|split].
  - intros Hnil. by rewrite Hnil.
  - intros Hne excel_bytes Hwrite.
    destruct kept as [|r kept']; [done|].
    cbn [length Nat.eqb]. fold extracted_df. rewrite Hwrite. reflexivity.
  - intros Hne e Hwrite.
    destruct kept as [|r kept']; [done|].
    cbn [length Nat.eqb]. fold extracted_df. by rewrite Hwrite.
Qed.

Lemma slope_select_eq (df : DataFrame) :
  let valid := FastApi.valid_indices (length (columns df)) in
  FastApi.slope_select df =
  Ok {| columns := take (length valid) FastApi.new_column_names;
        rows := map (take_positions valid) (rows df) |}.
Proof.
  intros valid. unfold FastApi.slope_select. fold valid.
  rewrite (iloc_cols_in_range df valid) by apply valid_indices_bound.
  cbn [mbind result_bind]. unfold set_columns. cbn [columns rows].
  pose proof (valid_indices_length (length (columns df))) as Hlen8. fold valid in Hlen8.
  rewrite length_map, length_take.
  replace (length valid `min` length FastApi.new_column_names) with (length valid)
    by (unfold FastApi.new_column_names; simpl; lia).
  by rewrite Nat.eqb_refl.
Qed.

Lemma extract_table_slope (env : Env) (file_content : bytes) (df_raw df : DataFrame) :
  read_excel env None 0 file_content = Ok df_raw →
  parsed df_raw → ¬ Spec.marked (Spec.first_cell_text df_raw) →
  read_excel env (Some 0%nat) 0 file_content = Ok df →
  FastApi.extract_table env file_content =
  Ok ({| columns := take (length (FastApi.valid_indices (length (columns df))))
                      FastApi.new_column_names;
         rows := map (take_positions (FastApi.valid_indices (length (columns df))))
                   (rows df) |},
      FastApi.SlopeInspection).
Proof.
  intros Hraw Hp Hm Hread. unfold FastApi.extract_table.
  rewrite Hraw. cbn [mbind result_bind].
  rewrite (classify_unmarked _ Hp Hm). cbn [mbind result_bind].
  rewrite Hread. cbn [mbind result_bind].
  pose proof (slope_select_eq df) as Hsel. cbv zeta in Hsel. by rewrite Hsel.
Qed.

(** X4.  The slope-inspection layout, end to end.  When the content is
    obtained, the sheet read in full carries no marker in its first cell,
    and the sheet is read with its first row as header, the extraction
    itself cannot fail, whatever the width of the sheet, and keeps every
    data row: with no data row the answer is the no-data response under the
    layout's name; otherwise it is a success response whose row count is the
    number of data rows and whose column names are the fixed names of the
    positions that exist, or, when the writer raises, the response of a
    failure. *)
Theorem slope_request_outcome (env : Env) (request : FastApi.ExtractRequest)
    (file_content : bytes) (df_raw df : DataFrame)
    (Hcontent : (FastApi.get_file_content env request).2 = Ok file_content)
    (Hraw : read_excel env None 0 file_content = Ok df_raw)
    (Hparsed : parsed df_raw)
    (Hunmarked : ¬ Spec.marked (Spec.first_cell_text df_raw))
    (Hread : read_excel env (Some 0%nat) 0 file_content = Ok df) :
  let valid := FastApi.valid_indices (length (columns df)) in
  let names := take (length valid) FastApi.new_column_names in
  let extracted_df :=
    {| columns := names;
       rows := map (λ r, map (λ i, nth i r CNaN) valid) (rows df) |} in
  let response := (FastApi.extract_excel env request).2 in
  (rows df = [] → response = FastApi.no_data_response FastApi.SlopeInspection) ∧
  (rows df ≠ [] → ∀ excel_bytes, to_excel env extracted_df = Ok excel_bytes →
     response =
     {| FastApi.success := true;
        FastApi.format_type := "边坡检查表";
        FastApi.row_count := length (rows df);
        FastApi.resp_file_base64 := b64encode excel_bytes;
        FastApi.filename := "提取数据_边坡检查表_" +:+ strftime_now env +:+ ".xlsx";
        FastApi.message :=
          "识别为【边坡检查表】，成功提取 " +:+ pretty (length (rows df)) +:+ " 行数据";
        FastApi.column_names := names |}) ∧
  (rows df ≠ [] → ∀ e, to_excel env extracted_df = Raise e →
     response = FastApi.failure_response e).
Proof.
  intros valid names extracted_df response.
  pose proof (extract_table_slope env file_content df_raw df Hraw Hparsed Hunmarked Hread)
    as Hextract.
  change (FastApi.extract_table env file_content
          = Ok (extracted_df, FastApi.SlopeInspection)) in Hextract.
  unfold response.
  rewrite (extract_excel_from_table env request file_content _ _ Hcontent Hextract).
  unfold FastApi.respond, FastApi.success_response, len.
  cbn [rows columns extracted_df]. rewrite length_map.
  split; [|split].
  - intros Hnil. by rewrite Hnil.
  - intros Hne excel_bytes Hwrite.
    destruct (length (rows df)) as [|n] eqn:Hlen;
      [by apply length_zero_iff_nil in Hlen|].
    cbn [Nat.eqb]. fold extracted_df. rewrite Hwrite. reflexivity.
  - intros Hne e Hwrite.
    destruct (length (rows df)) as [|n] eqn:Hlen;
      [by apply length_zero_iff_nil in Hlen|].
    cbn [Nat.eqb]. fold extracted_df. by rewrite Hwrite.
Qed.

Lemma survey_raw_parsed : parsed Sample.survey_raw.
Proof. split; [|discriminate]. repeat constructor. Qed.

Lemma other_sheet_parsed : parsed Sample.other_sheet.
Proof. split; [|discriminate]. repeat constructor. Qed.

Lemma survey_request_outcome_witness :
  (FastApi.extract_excel
     (Sample.env_of Sample.survey_raw Sample.survey_skipped Sample.empty_frame 200 "OK")
     Sample.inline_request).2
  = {| FastApi.success := true;
       FastApi.format_type := "测量成果表";
       FastApi.row_count := 4;
       FastApi.resp_file_base64 := "UEsDBA==";
       FastApi.filename := "提取数据_测量成果表_20240101_120000.xlsx";
       FastApi.message := "识别为【测量成果表】，成功提取 4 行数据";
       FastApi.column_names := [LStr "测点编号"; LStr "X坐标"; LStr "Y坐标"; LStr "高程H"] |}.
Proof.
  pose proof (survey_request_outcome
    (Sample.env_of Sample.survey_raw Sample.survey_skipped Sample.empty_frame 200 "OK")
    Sample.inline_request [] Sample.survey_raw Sample.survey_skipped
    eq_refl eq_refl survey_raw_parsed (or_introl eq_refl) eq_refl (le_n 5)) as H.
  cbv zeta in H. destruct H as (_ & Hsome & _).
  refine (Hsome _ Sample.zip_magic eq_refl). discriminate.
Defined.

Lemma slope_request_outcome_witness :
  (FastApi.extract_excel
     (Sample.env_of Sample.other_sheet Sample.empty_frame Sample.nine_columns 200 "OK")
     Sample.inline_request).2
  = {| FastApi.success := true;
       FastApi.format_type := "边坡检查表";
       FastApi.row_count := 2;
       FastApi.resp_file_base64 := "UEsDBA==";
       FastApi.filename := "提取数据_边坡检查表_20240101_120000.xlsx";
       FastApi.message := "识别为【边坡检查表】，成功提取 2 行数据";
       FastApi.column_names := [LStr "线路名"; LStr "超欠挖"; LStr "实测X或里程"] |}.
Proof.
  pose proof (slope_request_outcome
    (Sample.env_of Sample.other_sheet Sample.empty_frame Sample.nine_columns 200 "OK")
    Sample.inline_request [] Sample.other_sheet Sample.nine_columns
    eq_refl eq_refl other_sheet_parsed) as H.
  cbv zeta in H.
  destruct H as (_ & Hsome & _); [|reflexivity|].
  - intros [Hm|Hm]; vm_compute in Hm; discriminate Hm.
  - refine (Hsome _ Sample.zip_magic eq_refl). discriminate.
Defined.

(** ** What the survey extraction lets through *)

(** X5.  Whenever the survey extraction returns a table, the table read
    had at least five columns, and every row of the result has exactly four
    cells of which the second, the one named X坐标, reads as a number: a row
    with an empty or a textual X coordinate is never extracted, and there
    are never more rows than the sheet had. *)
Theorem survey_rows_numeric (env : Env) (df extracted_df : DataFrame)
    (Hok : FastApi.survey_select env df = Ok extracted_df) :
  (5 ≤ length (columns df))%nat ∧
  columns extracted_df = [LStr "测点编号"; LStr "X坐标"; LStr "Y坐标"; LStr "高程H"] ∧
  (len extracted_df ≤ len df)%nat ∧
  Forall (λ r, length r = 4%nat ∧
               to_numeric_notna (text_is_number env) (nth 1 r CNaN) = true)
         (rows extracted_df).
Proof.
  pose proof (survey_select_Ok_wide env df extracted_df Hok) as Hwide.
  rewrite (survey_select_wide env df Hwide) in Hok.
  injection Hok as <-. cbn [columns rows len].
  split; [done|]. split; [done|]. split.
  - unfold len. cbn [rows]. rewrite length_map. apply filter_length_le.
  - apply Forall_forall. intros r Hr.
    apply list_elem_of_In, in_map_iff in Hr as (src & <- & Hsrc).
    apply filter_In in Hsrc as [_ Hnum]. by split.
Qed.

Lemma survey_rows_numeric_witness :
  Forall (λ r, length r = 4%nat ∧
               to_numeric_notna Sample.digits (nth 1 r CNaN) = true)
         (map Spec.pick_survey
            (List.filter (Spec.numeric_at_2
               (Sample.env_of Sample.survey_raw Sample.survey_skipped Sample.empty_frame
                  200 "OK")) (rows Sample.survey_skipped))).
Proof.
  exact (proj2 (proj2 (proj2 (survey_rows_numeric
    (Sample.env_of Sample.survey_raw Sample.survey_skipped Sample.empty_frame 200 "OK")
    Sample.survey_skipped _ eq_refl)))).
Defined.

(** ** The clock *)



(** ** What is fetched, and which answers are accepted *)

(** X7.  Both handlers fetch at most one URL, the one of the request, and
    fetch it exactly when the request carries no (or an empty) inline
    [file_base64] and a non-empty [file_url].  What the libraries answer
    plays no part: an inline string that does not decode or does not parse
    is never made up for by a download. *)
Theorem fetch_policy (env : Env) :
  (∀ request,
     (FastApi.extract_excel env request).1 =
     if opt_truthy (FastApi.file_base64 request) then []
     else if truthy (FastApi.file_url request) then [HttpGet (FastApi.file_url request)]
     else []) ∧
  (FlaskApp.extract_excel env FlaskApp.NoData).1 = [] ∧
  (∀ data,
     (FlaskApp.extract_excel env (FlaskApp.Data data)).1 =
     if opt_truthy (FlaskApp.file_base64 data) then []
     else match FlaskApp.file_url data with
          | Some url => if truthy url then [HttpGet url] else []
          | None => []
          end).
Proof.
  split; [|split].
  - intros request. unfold FastApi.extract_excel, FastApi.try_extract,
      FastApi.get_file_content.
    destruct (opt_truthy (FastApi.file_base64 request)); [done|].
    by destruct (truthy (FastApi.file_url request)).
  - reflexivity.
  - intros data. unfold FlaskApp.extract_excel, FlaskApp.try_extract,
      FlaskApp.read_source.
    destruct (opt_truthy (FlaskApp.file_base64 data)); [done|].
    destruct (FlaskApp.file_url data) as [url|]; [|done].
    cbn [opt_truthy default]. by destruct (truthy url).
Qed.

(** X8.  The two services accept different answers of the file server.
    The FastAPI handler takes the content of an answer with status 200 and
    of no other: any other status, a 204 or a 304 as much as a 404, ends in
    the response of a failure that quotes the status.  The Flask handler
    goes by [raise_for_status]: it reads the content of every answer whose
    status is outside 400 to 599, and raises on the others. *)
Theorem download_status_policy (env : Env) (url : string) (answer : HttpResponse)
    (Hurl : truthy url = true)
    (Hget : requests_get env url = Ok answer) :
  let request := {| FastApi.file_url := url; FastApi.file_base64 := None |} in
  (status_code answer = 200%Z →
     (FastApi.get_file_content env request).2 = Ok (content answer)) ∧
  (status_code answer ≠ 200%Z →
     (FastApi.extract_excel env request).2 =
     FastApi.failure_response
       (HTTPException 400 ("下载文件失败: HTTP " +:+ pretty (status_code answer)))) ∧
  ((status_code answer < 400 ∨ 600 ≤ status_code answer)%Z →
     FlaskApp.read_excel_from_url env url
     = read_excel env (Some 0%nat) 0 (content answer)) ∧
  ((400 ≤ status_code answer < 600)%Z →
     ∃ msg, FlaskApp.read_excel_from_url env url = Raise (PyExc "HTTPError" msg)).
Proof.
  intros request. split; [|split; [|split]].
  - intros H200. unfold FastApi.get_file_content. cbn [request FastApi.file_base64
      FastApi.file_url opt_truthy snd]. rewrite Hurl. cbn [snd].
    rewrite Hget. cbn [mbind result_bind]. rewrite H200. reflexivity.
  - intros Hother. unfold FastApi.extract_excel, FastApi.try_extract,
      FastApi.get_file_content. cbn [request FastApi.file_base64 FastApi.file_url
      opt_truthy]. rewrite Hurl. cbn [snd]. rewrite Hget. cbn [mbind result_bind].
    replace (status_code answer =? 200)%Z with false
      by (symmetry; by apply Z.eqb_neq).
    reflexivity.
  - intros Hout. unfold FlaskApp.read_excel_from_url. rewrite Hget.
    cbn [mbind result_bind]. unfold FlaskApp.raise_for_status.
    destruct Hout as [Hlt|Hge].
    + replace (status_code answer <? 500)%Z with true by (symmetry; apply Z.ltb_lt; lia).
      replace (400 <=? status_code answer)%Z with false
        by (symmetry; apply Z.leb_gt; lia).
      replace (500 <=? status_code answer)%Z with false
        by (symmetry; apply Z.leb_gt; lia).
      reflexivity.
    + replace (status_code answer <? 500)%Z with false by (symmetry; apply Z.ltb_ge; lia).
      replace (status_code answer <? 600)%Z with false by (symmetry; apply Z.ltb_ge; lia).
      rewrite !andb_false_r. reflexivity.
  - intros [Hlo Hhi]. unfold FlaskApp.read_excel_from_url. rewrite Hget.
    cbn [mbind result_bind]. unfold FlaskApp.raise_for_status.
    replace (400 <=? status_code answer)%Z with true by (symmetry; apply Z.leb_le; lia).
    replace (status_code answer <? 600)%Z with true by (symmetry; apply Z.ltb_lt; lia).
    destruct (status_code answer <? 500)%Z eqn:E5.
    + cbn [andb mbind result_bind]. by eexists.
    + replace (500 <=? status_code answer)%Z with true
        by (symmetry; apply Z.leb_le; apply Z.ltb_ge in E5; lia).
      cbn [andb mbind result_bind]. by eexists.
Qed.

Lemma download_status_policy_witness :
  let env := Sample.env_of Sample.survey_raw Sample.survey_skipped Sample.header_only
               204 "No Content" in
  (FastApi.extract_excel env Sample.url_request).2
    = FastApi.failure_response (HTTPException 400 "下载文件失败: HTTP 204") ∧
  FlaskApp.read_excel_from_url env "http://files.example/sheet.xlsx"
    = Ok Sample.header_only.
Proof.
  intros env.
  pose proof (download_status_policy env "http://files.example/sheet.xlsx"
                {| status_code := 204; reason := "No Content"; content := [] |}
                eq_refl eq_refl) as H.
  cbv zeta in H. destruct H as (_ & Hfast & Hflask & _).
  split.
  - apply Hfast. discriminate.
  - apply Hflask. left. reflexivity.
Defined.

(** ** The shape of the Flask response *)

Lemma detect_loop_name (formats : list (string * FlaskApp.FormatInfo))
    (header : gset label) (name : string) (cols : list label) :
  FlaskApp.detect_loop formats header = Some (name, cols) →
  ∃ info, (name, info) ∈ formats ∧ cols = FlaskApp.extract_columns info.
Proof.
  induction formats as [|[n i] formats IH]; simpl; [discriminate|].
  case_decide.
  - intros [= <- <-]. exists i. split; [by left|done].
  - intros Hrest. destruct (IH Hrest) as (info & Hin & Hcols).
    exists info. split; [by right|done].
Qed.

Lemma detected_format_name (df : DataFrame) :
  default "未知格式" (FlaskApp.detect_excel_format df).1
  ∈ ["边坡检查表"; "测量成果表"; "未知格式"].
Proof.
  unfold FlaskApp.detect_excel_format.
  destruct (FlaskApp.detect_loop _ _) as [[name cols]|] eqn:Hloop; cbn [fst default].
  - apply detect_loop_name in Hloop as (info & Hin & _).
    unfold FlaskApp.EXCEL_FORMATS in Hin.
    apply elem_of_cons in Hin as [[= -> _]|Hin]; [by left|].
    apply elem_of_cons in Hin as [[= -> _]|Hin]; [right; by left|].
    by apply not_elem_of_nil in Hin.
  - right; right; by left.
Qed.

(** X9.  Every answer of the Flask handler is of one of three kinds.
    Status 200 comes with a success body and only with it: a frame was
    read, at least one of the columns to extract occurs in its header, the
    selection was written, and the body reports the columns that were
    found, the number of rows of the frame read (none is ever dropped),
    the base64 text of what the writer returned, and as format one of the
    two layout names or 未知格式.  Status 400 and status 500 come with a
    failure body; a 500 body quotes the exception that was caught. *)
Theorem flask_response_shape (env : Env) (req : FlaskApp.request_json) :
  let response := (FlaskApp.extract_excel env req).2 in
  (response.2 = 200%Z ∧
   ∃ data df available excel_bytes,
     req = FlaskApp.Data data ∧
     (FlaskApp.read_source env data).2 = Some (Ok df) ∧
     available = FlaskApp.available_columns df
                   (FlaskApp.columns_to_extract (FlaskApp.custom_columns data)
                      (FlaskApp.detect_excel_format df).2) ∧
     available ≠ [] ∧
     to_excel env (select_columns df available) = Ok excel_bytes ∧
     response.1 =
       FlaskApp.Extracted ("成功提取 " +:+ pretty (len df) +:+ " 行数据")
         (default "未知格式" (FlaskApp.detect_excel_format df).1)
         available (len df) (b64encode excel_bytes) ∧
     default "未知格式" (FlaskApp.detect_excel_format df).1
       ∈ ["边坡检查表"; "测量成果表"; "未知格式"])
  ∨ (response.2 = 400%Z ∧ ∃ message, response.1 = FlaskApp.Failed message)
  ∨ (response.2 = 500%Z ∧
     ∃ e, response.1 = FlaskApp.Failed ("处理失败: " +:+ exn_str e)).
Proof.
  intros response. unfold response, FlaskApp.extract_excel, FlaskApp.try_extract.
  destruct req as [|data]; [right; left; split; [done|by eexists]|].
  destruct (FlaskApp.read_source env data) as [trace [[df|e]|]] eqn:Hsrc;
    cbn [fst snd mbind result_bind].
  - unfold FlaskApp.extract_from.
    destruct (FlaskApp.detect_excel_format df) as [detected default_columns] eqn:Hdet.
    destruct (FlaskApp.available_columns df _) as [|c cs] eqn:Hav.
    + right; left. split; [done|by eexists].
    + destruct (to_excel env _) as [excel_bytes|e] eqn:Hwrite; cbn [mbind result_bind].
      * left. split; [done|].
        exists data, df, (c :: cs), excel_bytes.
        pose proof (detected_format_name df) as Hname.
        rewrite Hdet in *. rewrite Hsrc. cbn [fst snd] in *. rewrite Hav.
        assert (len (select_columns df (c :: cs)) = len df) as ->
          by (unfold len, select_columns; cbn [rows]; apply length_map).
        by repeat split.
      * right; right. split; [done|by eexists].
  - right; right. split; [done|by eexists].
  - right; left. split; [done|by eexists].
Qed.

(** ** Selection by name *)

Lemma tagged_filter_absent (f : nat → nat) (cols : list label) (name : label) :
  name ∉ cols →
  filter (λ p : nat * label, p.2 = name) (imap (λ i c, (f i, c)) cols) = [].
Proof.
  revert f. induction cols as [|c cs IH]; intros f Hnot; [done|].
  apply not_elem_of_cons in Hnot as [Hne Hnot].
  rewrite imap_cons, filter_cons_False by (cbn; congruence).
  apply (IH (f ∘ S) Hnot).
Qed.

Lemma tagged_filter_unique (f : nat → nat) (cols : list label) (name : label) (j : nat) :
  NoDup cols → cols !! j = Some name →
  map fst (filter (λ p : nat * label, p.2 = name) (imap (λ i c, (f i, c)) cols)) = [f j].
Proof.
  revert f j. induction cols as [|c cs IH]; intros f j Hnodup Hj; [done|].
  apply NoDup_cons in Hnodup as [Hfresh Hnodup].
  rewrite imap_cons. destruct j as [|j]; cbn in Hj.
  - injection Hj as ->.
    rewrite filter_cons_True by done.
    change (imap ((λ i c, (f i, c)) ∘ S) cs) with (imap (λ i c, ((f ∘ S) i, c)) cs).
    by rewrite (tagged_filter_absent (f ∘ S) cs name Hfresh).
  - assert (c ≠ name) as Hne.
    { intros ->. apply Hfresh. by eapply list_elem_of_lookup_2. }
    rewrite filter_cons_False by (cbn; congruence).
    apply (IH (f ∘ S) j Hnodup Hj).
Qed.

Lemma positions_of_unique (cols : list label) (name : label) (j : nat) :
  NoDup cols → cols !! j = Some name → positions_of cols name = [j].
Proof. intros Hnodup Hj. apply (tagged_filter_unique id cols name j Hnodup Hj). Qed.

Lemma positions_of_names (cols names : list label) :
  NoDup cols → Forall (λ n, n ∈ cols) names →
  ∃ js, concat (map (positions_of cols) names) = js ∧
        Forall2 (λ n j, cols !! j = Some n) names js.
Proof.
  intros Hnodup Hall. induction Hall as [|n names Hn Hall IH].
  - exists []. by split.
  - destruct IH as (js & Hjs & Hrel).
    apply list_elem_of_lookup in Hn as [j Hj].
    exists (j :: js). split; [|by constructor].
    cbn [map concat]. by rewrite (positions_of_unique cols n j Hnodup Hj), Hjs.
Qed.

Lemma available_columns_present (df : DataFrame) (to_extract : list label) :
  Forall (λ n, n ∈ columns df) (FlaskApp.available_columns df to_extract).
Proof.
  apply Forall_forall. intros n Hn.
  by apply list_elem_of_filter in Hn as [Hn _].
Qed.

(** X10.  Selection by name in the Flask handler, on a frame whose column
    labels are pairwise distinct (the reader renames duplicates): the frame
    that is written has exactly the columns reported as extracted, in the
    order in which they were requested, requested names that the header
    lacks being dropped; it has as many rows as the frame read; and in
    every row the cell under a name is the cell that stood under that name
    in the frame read. *)
Theorem select_available_columns (df : DataFrame) (to_extract : list label)
    (Hnodup : NoDup (columns df)) :
  let available := FlaskApp.available_columns df to_extract in
  let extracted_df := select_columns df available in
  columns extracted_df = available ∧
  (∀ n, n ∈ available ↔ n ∈ to_extract ∧ n ∈ columns df) ∧
  len extracted_df = len df ∧
  ∀ i row, rows df !! i = Some row →
    ∃ row', rows extracted_df !! i = Some row' ∧
            length row' = length available ∧
            ∀ k n j, available !! k = Some n → columns df !! j = Some n →
                     row' !! k = Some (nth j row CNaN).
Proof.
  intros available extracted_df.
  destruct (positions_of_names (columns df) available Hnodup
              (available_columns_present df to_extract)) as (js & Hjs & Hrel).
  unfold extracted_df, select_columns. rewrite Hjs. cbn [columns rows].
  split; [|split; [|split]].
  - clear Hjs. induction Hrel as [|n j names js' Hj Hrel IH]; [done|].
    cbn [map]. rewrite IH. f_equal. by apply nth_lookup_Some.
  - intros n. unfold available, FlaskApp.available_columns.
    rewrite list_elem_of_filter. tauto.
  - unfold len. cbn [rows]. apply length_map.
  - intros i row Hrow. exists (take_positions js row). split.
    + by rewrite list_lookup_fmap, Hrow.
    + split.
      * unfold take_positions. rewrite length_map.
        symmetry. by eapply Forall2_length.
      * intros k n j Hk Hj.
        destruct (Forall2_lookup_l _ _ _ _ _ Hrel Hk) as (j' & Hj' & Hcol).
        assert (j' = j) as -> by (by eapply NoDup_lookup).
        unfold take_positions. by rewrite list_lookup_fmap, Hj'.
Qed.

Lemma select_available_columns_witness :
  columns (select_columns Sample.nine_columns
             (FlaskApp.available_columns Sample.nine_columns
                [LStr "超欠挖"; LStr "里程"; LStr "线路"]))
  = [LStr "超欠挖"; LStr "线路"].
Proof.
  refine (proj1 (select_available_columns Sample.nine_columns
                   [LStr "超欠挖"; LStr "里程"; LStr "线路"] _)).
  apply NoDup_ListNoDup. vm_compute.
  repeat (constructor; [intros Hin; simpl in Hin; intuition discriminate|]).
  constructor.
Defined.

(** ** How the format table resolves a header *)

Lemma pair_subseteq_header (a b : label) (cols : list label) :
  (list_to_set [a; b] : gset label) ⊆ list_to_set cols ↔ a ∈ cols ∧ b ∈ cols.
Proof.
  rewrite elem_of_subseteq. setoid_rewrite elem_of_list_to_set. split.
  - intros Hsub. split; apply Hsub; [by left|right; by left].
  - intros [Ha Hb] x Hx.
    apply elem_of_cons in Hx as [->|Hx]; [done|].
    apply elem_of_cons in Hx as [->|Hx]; [done|].
    by apply not_elem_of_nil in Hx.
Qed.

(** X11.  With the table as it stands, a header is taken for 边坡检查表
    exactly when it holds both 序号 and 桩号, with the six columns of that
    layout as default; for 测量成果表 exactly when it holds both 点号 and
    X坐标 and not both 序号 and 桩号, with the five columns of that layout as
    default (a header that satisfies both layouts is never resolved to the
    second); and is unrecognised otherwise, with all of its own columns as
    default. *)
Theorem format_table_resolution (df : DataFrame) :
  let has name := LStr name ∈ columns df in
  let slope := has "序号" ∧ has "桩号" in
  let survey := has "点号" ∧ has "X坐标" in
  (slope ↔
     FlaskApp.detect_excel_format df =
     (Some "边坡检查表",
      [LStr "序号"; LStr "桩号"; LStr "检查时间"; LStr "责任人"; LStr "问题描述";
       LStr "整改措施"])) ∧
  (survey ∧ ¬ slope ↔
     FlaskApp.detect_excel_format df =
     (Some "测量成果表",
      [LStr "点号"; LStr "X坐标"; LStr "Y坐标"; LStr "高程"; LStr "备注"])) ∧
  (¬ survey ∧ ¬ slope ↔ FlaskApp.detect_excel_format df = (None, columns df)).
Proof.
  intros has slope survey.
  unfold FlaskApp.detect_excel_format, FlaskApp.EXCEL_FORMATS, FlaskApp.detect_loop.
  cbn [FlaskApp.identifier_columns FlaskApp.extract_columns].
  subst slope survey has. cbv beta.
  case_decide as Hslope; [|case_decide as Hsurvey];
    rewrite pair_subseteq_header in Hslope;
    try rewrite pair_subseteq_header in Hsurvey;
    (split; [|split]); (split; [intros ?|intros ?]);
    solve [done | tauto | discriminate].
Qed.

(** A header that holds the identifier columns of both layouts, with the
    survey columns first. *)
Lemma format_table_resolution_witness :
  FlaskApp.detect_excel_format
    {| columns := [LStr "点号"; LStr "X坐标"; LStr "序号"; LStr "桩号"]; rows := [] |}
  ≠ (Some "测量成果表",
     [LStr "点号"; LStr "X坐标"; LStr "Y坐标"; LStr "高程"; LStr "备注"]).
Proof.
  pose proof (format_table_resolution
    {| columns := [LStr "点号"; LStr "X坐标"; LStr "序号"; LStr "桩号"]; rows := [] |})
    as H.
  cbv zeta in H. destruct H as (_ & [_ Hback] & _).
  intros Heq. destruct (Hback Heq) as [_ Hnot]. apply Hnot.
  cbn [columns]. split; [do 2 right; by left|do 3 right; by left].
Defined.

(** ** When no column is found *)

Lemma available_head (df : DataFrame) (c : label) (cs : list label) :
  c ∈ columns df → FlaskApp.available_columns df (c :: cs) ≠ [].
Proof.
  intros Hc. unfold FlaskApp.available_columns. by rewrite filter_cons_True.
Qed.

(** X12.  Without a column list from the caller (none, or an empty one)
    the Flask handler finds no column only in a frame that has no column at
    all.  In a frame with at least one column the default columns always
    meet the header: a recognised layout requires its identifier columns,
    which head its default list, and an unrecognised one defaults to the
    header itself; the answer is then never the 400 of the empty selection.
    In a frame without columns the answer is that 400, whatever the caller
    asked for. *)
Theorem default_selection_meets_header (env : Env) (df : DataFrame)
    (custom : option (list label))
    (Hcustom : custom = None ∨ custom = Some []) :
  (columns df ≠ [] →
     FlaskApp.available_columns df
       (FlaskApp.columns_to_extract custom (FlaskApp.detect_excel_format df).2) ≠ [] ∧
     ∀ response, FlaskApp.extract_from env custom df = Ok response → response.2 = 200%Z) ∧
  (columns df = [] →
     ∀ asked, FlaskApp.extract_from env asked df
              = Ok (FlaskApp.Failed "未找到指定的列。可用列: []", 400%Z)).
Proof.
  split.
  - intros Hcols.
    assert (FlaskApp.available_columns df
              (FlaskApp.columns_to_extract custom (FlaskApp.detect_excel_format df).2)
            ≠ []) as Hav.
    { assert (FlaskApp.columns_to_extract custom (FlaskApp.detect_excel_format df).2
              = (FlaskApp.detect_excel_format df).2) as ->
        by (by destruct Hcustom as [-> | ->]).
      unfold FlaskApp.detect_excel_format, FlaskApp.EXCEL_FORMATS, FlaskApp.detect_loop.
      cbn [FlaskApp.identifier_columns FlaskApp.extract_columns].
      case_decide as Hslope; [|case_decide as Hsurvey]; cbn [snd].
      - apply pair_subseteq_header in Hslope as [Hc _]. by apply available_head.
      - apply pair_subseteq_header in Hsurvey as [Hc _]. by apply available_head.
      - destruct (columns df) as [|c cs] eqn:Hdf; [done|].
        apply available_head. rewrite Hdf. by left. }
    split; [exact Hav|].
    intros response. unfold FlaskApp.extract_from.
    destruct (FlaskApp.detect_excel_format df) as [detected default_columns].
    cbn [snd] in Hav.
    destruct (FlaskApp.available_columns df _) as [|c cs]; [done|].
    destruct (to_excel env _); cbn [mbind result_bind]; [|discriminate].
    by intros [= <-].
  - intros Hcols asked. unfold FlaskApp.extract_from.
    destruct (FlaskApp.detect_excel_format df) as [detected default_columns].
    rewrite (available_columns_nil df _); [by rewrite Hcols|].
    intros col _. rewrite Hcols. apply not_elem_of_nil.
Qed.

Lemma default_selection_meets_header_witness :
  FlaskApp.available_columns Sample.other_sheet
    (FlaskApp.columns_to_extract (Some [])
       (FlaskApp.detect_excel_format Sample.other_sheet).2) ≠ [].
Proof.
  refine (proj1 (proj1 (default_selection_meets_header
    (Sample.env_of Sample.empty_frame Sample.empty_frame Sample.other_sheet 200 "OK")
    Sample.other_sheet (Some []) (or_intror eq_refl)) _)).
  discriminate.
Defined.

(** ** A reader that raises *)

(** X13.  Once the content is obtained, an exception of the reader is
    answered by the response of a failure, at whichever of the reads it is
    raised: at the first read, or, the layout being already recognised from
    the first cell, at the second read of the survey branch or of the slope
    branch.  In all three cases the layout name of the answer is 未知 and the
    message quotes the exception, so a layout that was recognised is not
    reported when its own read fails. *)
Theorem reader_failure_outcome (env : Env) (request : FastApi.ExtractRequest)
    (file_content : bytes) (e : exn)
    (Hcontent : (FastApi.get_file_content env request).2 = Ok file_content) :
  let response := (FastApi.extract_excel env request).2 in
  let failed :=
    response = FastApi.failure_response e ∧
    FastApi.format_type response = "未知" ∧
    FastApi.message response = "解析Excel失败: " +:+ exn_str e in
  (read_excel env None 0 file_content = Raise e → failed) ∧
  (∀ df_raw, read_excel env None 0 file_content = Ok df_raw → parsed df_raw →
     Spec.marked (Spec.first_cell_text df_raw) →
     read_excel env None 7 file_content = Raise e → failed) ∧
  (∀ df_raw, read_excel env None 0 file_content = Ok df_raw → parsed df_raw →
     ¬ Spec.marked (Spec.first_cell_text df_raw) →
     read_excel env (Some 0%nat) 0 file_content = Raise e → failed).
Proof.
  intros response failed.
  assert (FastApi.extract_table env file_content = Raise e → failed) as Hfail.
  { intros Hextract. unfold failed, response, FastApi.extract_excel, FastApi.try_extract.
    destruct (FastApi.get_file_content env request) as [trace r].
    cbn [snd] in Hcontent. subst r. cbn [snd mbind result_bind].
    by rewrite Hextract. }
  split; [|split].
  - intros Hraw. apply Hfail. unfold FastApi.extract_table. by rewrite Hraw.
  - intros df_raw Hraw Hp Hm Hread. apply Hfail. unfold FastApi.extract_table.
    rewrite Hraw. cbn [mbind result_bind]. rewrite (classify_marked _ Hp Hm).
    cbn [mbind result_bind]. by rewrite Hread.
  - intros df_raw Hraw Hp Hm Hread. apply Hfail. unfold FastApi.extract_table.
    rewrite Hraw. cbn [mbind result_bind]. rewrite (classify_unmarked _ Hp Hm).
    cbn [mbind result_bind]. by rewrite Hread.
Qed.

(** ** A sheet of full width *)

Lemma valid_indices_wide (ncols : nat) :
  (14 ≤ ncols)%nat → FastApi.valid_indices ncols = FastApi.slope_target_columns.
Proof.
  intros Hwide. unfold FastApi.valid_indices, FastApi.slope_target_columns.
  by rewrite !filter_cons_True by lia.
Qed.

(** X14.  A sheet with at least fourteen columns, read with its first row
    as header, is extracted in full width: the result carries all eight
    fixed names, and each of its rows holds the cells of the source row at
    the positions 0, 5, 8, 9, 10, 11, 12, 13, in that order.  The columns at
    positions 1 to 4, 6 and 7 and those from position 14 on are left
    out. *)
Theorem slope_wide_sheet (df : DataFrame)
    (Hwide : (14 ≤ length (columns df))%nat) :
  FastApi.slope_select df =
  Ok {| columns := [LStr "线路名"; LStr "超欠挖"; LStr "实测X或里程"; LStr "实测Y或偏距";
                    LStr "实测Z坐标"; LStr "里程"; LStr "偏距"; LStr "设计标高"];
        rows := map (λ r, [nth 0 r CNaN; nth 5 r CNaN; nth 8 r CNaN; nth 9 r CNaN;
                           nth 10 r CNaN; nth 11 r CNaN; nth 12 r CNaN; nth 13 r CNaN])
                    (rows df) |}.
Proof.
  pose proof (slope_select_eq df) as Hsel. cbv zeta in Hsel.
  rewrite Hsel, (valid_indices_wide _ Hwide). reflexivity.
Qed.

Lemma slope_wide_sheet_witness :
  FastApi.slope_select sixteen_columns =
  Ok {| columns := [LStr "线路名"; LStr "超欠挖"; LStr "实测X或里程"; LStr "实测Y或偏距";
                    LStr "实测Z坐标"; LStr "里程"; LStr "偏距"; LStr "设计标高"];
        rows := [[CInt 0; CInt 5; CInt 8; CInt 9; CInt 10; CInt 11; CInt 12; CInt 13]] |}.
Proof.
  refine (slope_wide_sheet sixteen_columns _).
  apply Nat.leb_le. vm_compute. reflexivity.
Defined.

Lemma reader_failure_outcome_witness :
  (FastApi.extract_excel
     (with_reader
        (Sample.env_of Sample.survey_raw Sample.survey_skipped Sample.empty_frame
           200 "OK")
        (λ _ _ _, Raise (PyExc "BadZipFile" "File is not a zip file")))
     Sample.inline_request).2
  = {| FastApi.success := false;
       FastApi.format_type := "未知";
       FastApi.row_count := 0;
       FastApi.resp_file_base64 := EmptyString;
       FastApi.filename := EmptyString;
       FastApi.message := "解析Excel失败: File is not a zip file";
       FastApi.column_names := [] |}.
Proof.
  pose proof (reader_failure_outcome
    (with_reader
       (Sample.env_of Sample.survey_raw Sample.survey_skipped Sample.empty_frame
          200 "OK")
       (λ _ _ _, Raise (PyExc "BadZipFile" "File is not a zip file")))
    Sample.inline_request [] (PyExc "BadZipFile" "File is not a zip file") eq_refl) as H.
  cbv zeta in H. destruct H as (Hfirst & _).
  exact (proj1 (Hfirst eq_refl)).
Defined.
